(** * The flight record accessor of [data.py]

    [data.py] holds six SQL texts and one class, [FlightData], whose four
    lookup methods each build a parameter dictionary and hand it, with one of
    the texts, to the guarded helper [_execute_query].

    This development embeds
    - the Python side as it is written: dynamically typed arguments, the
      [str] concatenation of [get_delayed_flights_by_airline], the
      [try]/[except] of [_execute_query] with its two handlers and their
      [print], all in a small state-and-exception monad over a [world];
    - the SQL side as a syntax tree per executed text and an evaluator that
      follows SQLite (the store named by the class docstring): three-valued
      logic, column affinity in comparisons, [COALESCE], [lower], [LIKE],
      inner join, [ORDER BY ... DESC].

    Scope of the model.  SQL values are NULL, integers and text (no REAL, no
    BLOB); text is a Rocq [string], one [ascii] per character (the code
    points below 256).  Every cell of the store holds any of these values:
    the declared type of a column gives its affinity in comparisons, not the
    class of its cells.  Nothing orders the rows of a statement without
    [ORDER BY], nor rows of equal key under it; the model takes one order
    and the properties below do not depend on it.  Exceptions are the
    classes deriving from [Exception]. *)

From Stdlib Require Import ZArith String Ascii List Bool Sorted Permutation Lia DecimalString.
From Stdlib Require OrderedTypeEx.
Import ListNotations.
Local Open Scope Z_scope.
Local Open Scope string_scope.
Local Open Scope list_scope.

(** ** Exceptions and outcomes *)

Inductive exn_class : Type :=
| ArgumentError      (* sqlalchemy.exc *)
| OperationalError   (* sqlalchemy.exc *)
| ProgrammingError   (* sqlalchemy.exc *)
| StatementError     (* sqlalchemy.exc *)
| TypeError
| OverflowError
| MemoryError.

Record exn : Type := { exn_type : exn_class; exn_str : string }.

(** [isinstance(e, SQLAlchemyError)] *)
Definition is_SQLAlchemyError (e : exn) : bool :=
  match exn_type e with
  | ArgumentError | OperationalError | ProgrammingError | StatementError => true
  | TypeError | OverflowError | MemoryError => false
  end.

(** [isinstance(e, Exception)]: every modelled class derives from it. *)
Definition is_Exception (e : exn) : bool :=
  match exn_type e with
  | ArgumentError | OperationalError | ProgrammingError | StatementError
  | TypeError | OverflowError | MemoryError => true
  end.

Inductive outcome (A : Type) : Type :=
| Return (a : A)
| Raise (e : exn).
Arguments Return {A} a.
Arguments Raise {A} e.

(** ** Python values *)

(** The arguments a caller can pass: [None], an [int] (unbounded), a [str],
    a [collections.UserString] (not a [str], yet its class defines [__add__]
    and [__radd__] with [str]), or an object of another built-in type that
    neither concatenates with [str] nor has a driver adapter (a list, a
    dict, a set, ...), kept by its type name. *)
Inductive pyval : Type :=
| PyNone
| PyInt (n : Z)
| PyStr (s : string)
| PyUserString (data : string)
| PyObject (type_name : string).

Definition is_str (v : pyval) : bool :=
  match v with PyStr _ => true | _ => false end.

(** Whether the class of [v] defines [__radd__] for a [str] on the left. *)
Definition has_radd (v : pyval) : bool :=
  match v with PyUserString _ => true | _ => false end.

Definition type_name_of (v : pyval) : string :=
  match v with
  | PyNone => "NoneType"
  | PyInt _ => "int"
  | PyStr _ => "str"
  | PyUserString _ => "UserString"
  | PyObject t => t
  end.

Definition QUOTE : string := String (ascii_of_nat 34) EmptyString.

(** [s + y] for a [str] [s]: the reflected addition of [y]'s class when it
    has one, concatenation when [y] is a [str], otherwise [TypeError]. *)
Definition str_add (s : string) (y : pyval) : outcome pyval :=
  match y with
  | PyStr t => Return (PyStr (s ++ t))
  | PyUserString d => Return (PyUserString (s ++ d))
  | _ => Raise {| exn_type := TypeError;
                  exn_str := ("can only concatenate str (not " ++ QUOTE
                              ++ type_name_of y ++ QUOTE ++ ") to str")%string |}
  end.

(** [x + t] for a [str] [t], where [x] is what [str_add] returned. *)
Definition add_str (x : pyval) (t : string) : outcome pyval :=
  match x with
  | PyStr s => Return (PyStr (s ++ t))
  | PyUserString d => Return (PyUserString (d ++ t))
  | _ => Raise {| exn_type := TypeError;
                  exn_str := ("unsupported operand type(s) for +: " ++ QUOTE
                              ++ type_name_of x ++ QUOTE ++ " and "
                              ++ QUOTE ++ "str" ++ QUOTE)%string |}
  end.

(** A parameter dictionary, in insertion order. *)
Definition dict : Type := list (string * pyval).

(** ** SQL values *)

Inductive value : Type :=
| VNull
| VInt (z : Z)
| VText (s : string).

Definition of_int (x : option Z) : value :=
  match x with Some z => VInt z | None => VNull end.

Definition of_text (x : option string) : value :=
  match x with Some s => VText s | None => VNull end.

(** A row-record: column name to value, in projection order. *)
Definition record : Type := list (string * value).

(** [row[name]]: the first column of that name. *)
Fixpoint field (name : string) (r : record) : option value :=
  match r with
  | [] => None
  | (k, v) :: r' => if String.eqb k name then Some v else field name r'
  end.

Definition columns_of (r : record) : list string := map fst r.

(** ** Text functions of the store *)

Definition is_upper (c : ascii) : bool :=
  let n := nat_of_ascii c in (Nat.leb 65 n && Nat.leb n 90)%bool.

(** SQLite folds the 26 ASCII letters only. *)
Definition lower_char (c : ascii) : ascii :=
  if is_upper c then ascii_of_nat (nat_of_ascii c + 32) else c.

Fixpoint lower (s : string) : string :=
  match s with
  | EmptyString => EmptyString
  | String c s' => String (lower_char c) (lower s')
  end.

(** [subject LIKE pattern], no ESCAPE clause: ["%"] matches any run of
    characters, ["_"] exactly one, any other character itself up to ASCII
    case. *)
Fixpoint like (pattern : string) : string -> bool :=
  match pattern with
  | EmptyString => fun subject => match subject with EmptyString => true | _ => false end
  | String p pattern' =>
      if Ascii.eqb p "%" then
        fix any (subject : string) : bool :=
          (like pattern' subject
           || match subject with
              | EmptyString => false
              | String _ subject' => any subject'
              end)%bool
      else if Ascii.eqb p "_" then
        fun subject =>
          match subject with
          | EmptyString => false
          | String _ subject' => like pattern' subject'
          end
      else
        fun subject =>
          match subject with
          | EmptyString => false
          | String c subject' =>
              (Ascii.eqb (lower_char p) (lower_char c) && like pattern' subject')%bool
          end
  end.

(** [LIKE] reads its two texts up to their first NUL character. *)
Fixpoint until_nul (s : string) : string :=
  match s with
  | EmptyString => EmptyString
  | String c s' => if Ascii.eqb c zero then EmptyString else String c (until_nul s')
  end.

(** The length of a text in bytes of UTF-8: one for a character below 128,
    two for the others. *)
Fixpoint utf8_bytes (s : string) : Z :=
  match s with
  | EmptyString => 0
  | String c s' => (if Nat.ltb (nat_of_ascii c) 128 then 1 else 2) + utf8_bytes s'
  end.

(** The longest pattern [LIKE] accepts, in bytes. *)
Definition LIKE_PATTERN_LENGTH : Z := 50000.

Definition text_of_int (z : Z) : string := NilZero.string_of_int (Z.to_int z).

Definition is_space (c : ascii) : bool :=
  let n := nat_of_ascii c in
  (Nat.eqb n 32 || (Nat.leb 9 n && Nat.leb n 13))%bool.

Definition is_digit (c : ascii) : bool :=
  let n := nat_of_ascii c in (Nat.leb 48 n && Nat.leb n 57)%bool.

Fixpoint skip_spaces (s : string) : string :=
  match s with
  | String c s' => if is_space c then skip_spaces s' else s
  | EmptyString => s
  end.

Fixpoint all_spaces (s : string) : bool :=
  match s with
  | EmptyString => true
  | String c s' => (is_space c && all_spaces s')%bool
  end.

(** Splits [s] into its longest run of leading digits and the rest. *)
Fixpoint span_digits (s : string) : string * string :=
  match s with
  | String c s' =>
      if is_digit c then let '(d, r) := span_digits s' in (String c d, r)
      else (EmptyString, s)
  | EmptyString => (EmptyString, EmptyString)
  end.

Definition digits_value (d : string) : option Z :=
  match d with
  | EmptyString => None
  | _ => option_map Z.of_uint (NilZero.uint_of_string d)
  end.

(** The integer a text spells: optional surrounding white space, an optional
    sign, one or more decimal digits.  Any other text spells none. *)
Definition int_of_text (s : string) : option Z :=
  let s := skip_spaces s in
  let '(neg, s) :=
    match s with
    | String "-" s' => (true, s')
    | String "+" s' => (false, s')
    | _ => (false, s)
    end in
  let '(d, r) := span_digits s in
  if all_spaces r
  then option_map (fun z => if neg : bool then - z else z) (digits_value d)
  else None.

(** Whether the numeric prefix of a text (sign, digits, one point, digits)
    is different from zero: the text's value in a boolean context. *)
Fixpoint mantissa_nonzero (seen_point : bool) (s : string) : bool :=
  match s with
  | EmptyString => false
  | String c s' =>
      if is_digit c then (negb (Ascii.eqb c "0") || mantissa_nonzero seen_point s')%bool
      else if (Ascii.eqb c "." && negb seen_point)%bool then mantissa_nonzero true s'
      else false
  end.

Definition text_nonzero (s : string) : bool :=
  match skip_spaces s with
  | String "-" s' | String "+" s' => mantissa_nonzero false s'
  | s' => mantissa_nonzero false s'
  end.

(** ** Operators of the store *)

(** Order of the storage classes and within them: NULL, then integers by
    value, then text by its characters (BINARY collation). *)
Definition value_compare (x y : value) : comparison :=
  match x, y with
  | VNull, VNull => Eq
  | VNull, _ => Lt
  | _, VNull => Gt
  | VInt a, VInt b => Z.compare a b
  | VInt _, VText _ => Lt
  | VText _, VInt _ => Gt
  | VText a, VText b => String.compare a b
  end.

Definition of_bool (b : bool) : value := VInt (if b then 1 else 0).

(** A value in a boolean context: NULL is unknown, zero is false. *)
Definition truth (v : value) : option bool :=
  match v with
  | VNull => None
  | VInt z => Some (negb (Z.eqb z 0))
  | VText s => Some (text_nonzero s)
  end.

Definition sql_eq (x y : value) : value :=
  match x, y with
  | VNull, _ | _, VNull => VNull
  | _, _ => of_bool (match value_compare x y with Eq => true | _ => false end)
  end.

Definition sql_ge (x y : value) : value :=
  match x, y with
  | VNull, _ | _, VNull => VNull
  | _, _ => of_bool (match value_compare x y with Lt => false | _ => true end)
  end.

Definition sql_and (x y : value) : value :=
  match truth x, truth y with
  | Some false, _ | _, Some false => of_bool false
  | Some true, Some true => of_bool true
  | _, _ => VNull
  end.

Definition sql_coalesce (x y : value) : value :=
  match x with VNull => y | _ => x end.

Definition as_text (v : value) : option string :=
  match v with
  | VNull => None
  | VInt z => Some (text_of_int z)
  | VText s => Some s
  end.

Definition sql_lower (x : value) : value :=
  match as_text x with Some s => VText (lower s) | None => VNull end.

Definition sql_like (subject pattern : value) : value :=
  match as_text subject, as_text pattern with
  | Some s, Some p => of_bool (like (until_nul p) (until_nul s))
  | _, _ => VNull
  end.

(** A pattern of more than [LIKE_PATTERN_LENGTH] bytes makes [LIKE] fail,
    whatever it is compared with. *)
Definition too_long (pattern : value) : bool :=
  match as_text pattern with
  | Some p => Z.ltb LIKE_PATTERN_LENGTH (utf8_bytes p)
  | None => false
  end.

(** Column affinity and its conversions before a comparison. *)
Inductive affinity : Type := INTEGER | TEXT | NONE.

Definition to_numeric (v : value) : value :=
  match v with
  | VText s => match int_of_text s with Some z => VInt z | None => v end
  | _ => v
  end.

Definition to_text (v : value) : value :=
  match v with
  | VInt z => VText (text_of_int z)
  | _ => v
  end.

Definition coerce (al ar : affinity) (x y : value) : value * value :=
  match al, ar with
  | INTEGER, INTEGER => (x, y)
  | INTEGER, _ => (x, to_numeric y)
  | _, INTEGER => (to_numeric x, y)
  | TEXT, NONE => (x, to_text y)
  | NONE, TEXT => (to_text x, y)
  | _, _ => (x, y)
  end.

(** ** The backing store *)

(** Table [flights]: the columns the texts name, and whatever further
    columns the table has ([others], one value per name in
    [flights_other_columns]).  A cell holds any value. *)
Module flights.
Record row : Type := {
  ID : value;
  YEAR : value;
  MONTH : value;
  DAY : value;
  AIRLINE : value;
  ORIGIN_AIRPORT : value;
  DESTINATION_AIRPORT : value;
  DEPARTURE_DELAY : value;
  others : list value
}.
End flights.

(** Table [airlines]: carrier code and display name. *)
Module airlines.
Record row : Type := {
  ID : value;
  AIRLINE : value
}.
End airlines.

(** Table [airports] is named by [QUERY_LONG_LAT] alone, which no method
    executes; it is not part of the modelled store. *)
Record database : Type := {
  flights_other_columns : list string;
  flights_rows : list flights.row;
  airlines_rows : list airlines.row
}.

(** ** The SQL fragment of the executed texts *)

Inductive column : Type :=
| f_ID | f_YEAR | f_MONTH | f_DAY | f_AIRLINE
| f_ORIGIN_AIRPORT | f_DESTINATION_AIRPORT | f_DEPARTURE_DELAY
| a_ID | a_AIRLINE.

Definition column_name (c : column) : string :=
  match c with
  | f_ID | a_ID => "ID"
  | f_YEAR => "YEAR"
  | f_MONTH => "MONTH"
  | f_DAY => "DAY"
  | f_AIRLINE | a_AIRLINE => "AIRLINE"
  | f_ORIGIN_AIRPORT => "ORIGIN_AIRPORT"
  | f_DESTINATION_AIRPORT => "DESTINATION_AIRPORT"
  | f_DEPARTURE_DELAY => "DEPARTURE_DELAY"
  end.

(** The affinity the declared type of a column gives it. *)
Definition column_affinity (c : column) : affinity :=
  match c with
  | f_ID | f_YEAR | f_MONTH | f_DAY | f_DEPARTURE_DELAY => INTEGER
  | f_AIRLINE | f_ORIGIN_AIRPORT | f_DESTINATION_AIRPORT | a_ID | a_AIRLINE => TEXT
  end.

Definition column_value (c : column) (f : flights.row) (a : airlines.row) : value :=
  match c with
  | f_ID => flights.ID f
  | f_YEAR => flights.YEAR f
  | f_MONTH => flights.MONTH f
  | f_DAY => flights.DAY f
  | f_AIRLINE => flights.AIRLINE f
  | f_ORIGIN_AIRPORT => flights.ORIGIN_AIRPORT f
  | f_DESTINATION_AIRPORT => flights.DESTINATION_AIRPORT f
  | f_DEPARTURE_DELAY => flights.DEPARTURE_DELAY f
  | a_ID => airlines.ID a
  | a_AIRLINE => airlines.AIRLINE a
  end.

Inductive expr : Type :=
| Col (c : column)
| Param (name : string)                 (* [:name] *)
| Lit (z : Z)
| Equals (l r : expr)                   (* [l = r] *)
| Ge (l r : expr)                       (* [l >= r] *)
| And (l r : expr)                      (* [l AND r] *)
| Coalesce (l r : expr)                 (* [COALESCE(l, r)] *)
| Lower (e : expr)                      (* [lower(e)] *)
| Like (subject pattern : expr).        (* [subject LIKE pattern] *)

Inductive item : Type :=
| Star_flights                                   (* [flights.*] *)
| Column (c : column) (alias : option string).   (* [c] or [c AS alias] *)

Inductive join : Type :=
| flights_JOIN_airlines
| airlines_JOIN_flights.

Record select : Type := {
  items : list item;
  from : join;
  on : expr;
  where_ : expr;
  order_by_desc : option expr
}.

Definition expr_affinity (e : expr) : affinity :=
  match e with
  | Col c => column_affinity c
  | _ => NONE
  end.

(** Bound parameters: placeholder name to SQL value. *)
Definition bindings : Type := list (string * value).

Fixpoint bound (name : string) (b : bindings) : value :=
  match b with
  | [] => VNull
  | (k, v) :: b' => if String.eqb k name then v else bound name b'
  end.

Fixpoint eval (b : bindings) (f : flights.row) (a : airlines.row) (e : expr) : value :=
  match e with
  | Col c => column_value c f a
  | Param name => bound name b
  | Lit z => VInt z
  | Equals l r =>
      let '(x, y) := coerce (expr_affinity l) (expr_affinity r) (eval b f a l) (eval b f a r) in
      sql_eq x y
  | Ge l r =>
      let '(x, y) := coerce (expr_affinity l) (expr_affinity r) (eval b f a l) (eval b f a r) in
      sql_ge x y
  | And l r => sql_and (eval b f a l) (eval b f a r)
  | Coalesce l r => sql_coalesce (eval b f a l) (eval b f a r)
  | Lower e' => sql_lower (eval b f a e')
  | Like s p => sql_like (eval b f a s) (eval b f a p)
  end.

(** A condition keeps a row when it is true (not false, not unknown). *)
Definition holds (v : value) : bool :=
  match truth v with Some true => true | _ => false end.

Fixpoint placeholders (e : expr) : list string :=
  match e with
  | Col _ | Lit _ => []
  | Param name => [name]
  | Equals l r | Ge l r | And l r | Coalesce l r | Like l r => placeholders l ++ placeholders r
  | Lower e' => placeholders e'
  end.

Definition select_placeholders (q : select) : list string :=
  placeholders (on q) ++ placeholders (where_ q)
  ++ match order_by_desc q with Some k => placeholders k | None => [] end.

(** The value of the [i]-th further column of a flights row; a row holds a
    value (NULL when unset) for every column of its table. *)
Fixpoint other_fields (names : list string) (vals : list value) : record :=
  match names with
  | [] => []
  | n :: names' =>
      match vals with
      | [] => (n, VNull) :: other_fields names' []
      | v :: vals' => (n, v) :: other_fields names' vals'
      end
  end.

Definition flights_columns : list column :=
  [f_ID; f_YEAR; f_MONTH; f_DAY; f_AIRLINE;
   f_ORIGIN_AIRPORT; f_DESTINATION_AIRPORT; f_DEPARTURE_DELAY].

Definition item_fields (db : database) (f : flights.row) (a : airlines.row) (i : item) : record :=
  match i with
  | Star_flights =>
      map (fun c => (column_name c, column_value c f a)) flights_columns
      ++ other_fields (flights_other_columns db) (flights.others f)
  | Column c alias =>
      [(match alias with Some n => n | None => column_name c end, column_value c f a)]
  end.

Definition project (db : database) (q : select) (fa : flights.row * airlines.row) : record :=
  flat_map (item_fields db (fst fa) (snd fa)) (items q).

Definition item_columns (db : database) (i : item) : list string :=
  match i with
  | Star_flights => map column_name flights_columns ++ flights_other_columns db
  | Column c alias => [match alias with Some n => n | None => column_name c end]
  end.

(** The column names of the records a statement produces. *)
Definition select_columns (db : database) (q : select) : list string :=
  flat_map (item_columns db) (items q).

(** Inner join as nested loops, the left table outermost. *)
Definition joined (db : database) (j : join) : list (flights.row * airlines.row) :=
  match j with
  | flights_JOIN_airlines =>
      flat_map (fun f => map (fun a => (f, a)) (airlines_rows db)) (flights_rows db)
  | airlines_JOIN_flights =>
      flat_map (fun a => map (fun f => (f, a)) (flights_rows db)) (airlines_rows db)
  end.

(** [ORDER BY key DESC]: stable insertion into a descending sequence. *)
Section Sorting.
Context {A : Type} (key : A -> value).

Fixpoint insert_desc (x : A) (l : list A) : list A :=
  match l with
  | [] => [x]
  | y :: l' =>
      match value_compare (key y) (key x) with
      | Gt => y :: insert_desc x l'
      | _ => x :: l
      end
  end.

Fixpoint sort_desc (l : list A) : list A :=
  match l with
  | [] => []
  | x :: l' => insert_desc x (sort_desc l')
  end.

End Sorting.

Definition selected (db : database) (b : bindings) (q : select)
  : list (flights.row * airlines.row) :=
  let kept :=
    filter (fun fa => (holds (eval b (fst fa) (snd fa) (on q))
                       && holds (eval b (fst fa) (snd fa) (where_ q)))%bool)
           (joined db (from q)) in
  match order_by_desc q with
  | Some k => sort_desc (fun fa => eval b (fst fa) (snd fa) k) kept
  | None => kept
  end.

Definition run_select (db : database) (b : bindings) (q : select) : list record :=
  map (project db q) (selected db b q).

(** *** When a pattern is too long *)

(** The conjuncts of a condition. *)
Fixpoint conjuncts (e : expr) : list expr :=
  match e with
  | And l r => conjuncts l ++ conjuncts r
  | _ => [e]
  end.

Definition of_flights (c : column) : bool :=
  match c with a_ID | a_AIRLINE => false | _ => true end.

Fixpoint reads_flights (e : expr) : bool :=
  match e with
  | Col c => of_flights c
  | Param _ | Lit _ => false
  | Equals l r | Ge l r | And l r | Coalesce l r | Like l r =>
      (reads_flights l || reads_flights r)%bool
  | Lower e' => reads_flights e'
  end.

Fixpoint reads_airlines (e : expr) : bool :=
  match e with
  | Col c => negb (of_flights c)
  | Param _ | Lit _ => false
  | Equals l r | Ge l r | And l r | Coalesce l r | Like l r =>
      (reads_airlines l || reads_airlines r)%bool
  | Lower e' => reads_airlines e'
  end.

(** The patterns the [LIKE]s of an expression are handed on a row. *)
Fixpoint like_patterns (b : bindings) (f : flights.row) (a : airlines.row) (e : expr)
  : list value :=
  match e with
  | Like s p => eval b f a p :: like_patterns b f a s ++ like_patterns b f a p
  | Col _ | Param _ | Lit _ => []
  | Equals l r | Ge l r | And l r | Coalesce l r =>
      like_patterns b f a l ++ like_patterns b f a r
  | Lower e' => like_patterns b f a e'
  end.

(** The statement fails on a pattern that is too long once that pattern is
    compared.  SQLite, left to plan the join of two tables without index,
    scans the flights and, at the first flight that passes the conjuncts on
    flights alone, looks at every carrier, keeping those that pass the
    conjuncts on carriers alone: there the pattern is compared. *)
Definition too_complex (db : database) (b : bindings) (q : select) : bool :=
  existsb
    (fun f =>
       existsb
         (fun a =>
            (forallb (fun c => holds (eval b f a c))
                     (filter (fun c => negb (reads_airlines c)) (conjuncts (where_ q)))
             && existsb (fun c => existsb too_long (like_patterns b f a c))
                        (filter (fun c => (reads_airlines c && negb (reads_flights c))%bool)
                                (conjuncts (where_ q))))%bool)
         (airlines_rows db))
    (flights_rows db).

(** ** The query texts of [data.py] *)

Definition TAB : string := String (ascii_of_nat 9) EmptyString.

Definition QUERY_FLIGHT_BY_ID : string :=
  "SELECT flights.*, airlines.airline, flights.ID as FLIGHT_ID, flights.DEPARTURE_DELAY as DELAY FROM flights JOIN airlines ON flights.airline = airlines.id WHERE flights.ID = :id".

Definition QUERY_FLIGHT_BY_DATE : string :=
  ("SELECT f.id, f.ORIGIN_AIRPORT, f.DESTINATION_AIRPORT, a.AIRLINE, f.DEPARTURE_DELAY AS DELAY FROM airlines AS a JOIN flights AS f ON"
   ++ TAB ++
   "a.ID = f.AIRLINE WHERE COALESCE(f.DEPARTURE_DELAY, 0) AND f.DAY = :day AND f.MONTH = :month AND f.YEAR = :year AND f.DEPARTURE_DELAY >= 20 ORDER BY DEPARTURE_DELAY DESC")%string.

Definition QUERY_FLIGHT_BY_AIRLINE : string :=
  "SELECT f.id, f.ORIGIN_AIRPORT, f.DESTINATION_AIRPORT, a.AIRLINE, f.DEPARTURE_DELAY AS DELAY FROM airlines AS a JOIN flights AS f ON a.ID = f.AIRLINE WHERE COALESCE(f.DEPARTURE_DELAY, 0) AND f.DEPARTURE_DELAY >= 20 AND lower(a.AIRLINE) LIKE lower(:airline) ORDER BY DEPARTURE_DELAY DESC".

Definition QUERY_FLIGHT_BY_ORIGIN_AIRPORT : string :=
  "SELECT f.id, f.ORIGIN_AIRPORT, f.DESTINATION_AIRPORT, a.AIRLINE, f.DEPARTURE_DELAY AS DELAY FROM airlines AS a JOIN flights AS f ON a.ID = f.AIRLINE WHERE COALESCE(f.DEPARTURE_DELAY, 0) AND f.DEPARTURE_DELAY >= 20 AND f.ORIGIN_AIRPORT = :origin_airport ORDER BY DEPARTURE_DELAY DESC".

Definition QUERY_AVG_PERCENTAGE_DELAYED_FLIGHTS : string :=
  "SELECT ORIGIN_AIRPORT, DESTINATION_AIRPORT, AVG(DELAYED_FLIGHTS * 100.0 / TOTAL_FLIGHTS) AS PERCENT_DELAYED FROM ( SELECT ORIGIN_AIRPORT, DESTINATION_AIRPORT, COUNT(CASE WHEN DEPARTURE_DELAY >= 20 THEN 0 END) AS DELAYED_FLIGHTS, COUNT(*) AS TOTAL_FLIGHTS FROM flights GROUP BY ORIGIN_AIRPORT, DESTINATION_AIRPORT ) AS ROUTE_STATS WHERE (ORIGIN_AIRPORT = :origin AND DESTINATION_AIRPORT = :destination) OR (ORIGIN_AIRPORT = :origin_vv AND DESTINATION_AIRPORT = :destination_vv) GROUP BY ORIGIN_AIRPORT, DESTINATION_AIRPORT".

Definition QUERY_LONG_LAT : string :=
  "SELECT IATA_CODE, LATITUDE, LONGITUDE FROM airports WHERE IATA_CODE = :origin OR IATA_CODE = :destination".

(** The module-level names and the texts they are bound to. *)
Definition templates : list (string * string) :=
  [ ("QUERY_FLIGHT_BY_ID", QUERY_FLIGHT_BY_ID);
    ("QUERY_FLIGHT_BY_DATE", QUERY_FLIGHT_BY_DATE);
    ("QUERY_FLIGHT_BY_AIRLINE", QUERY_FLIGHT_BY_AIRLINE);
    ("QUERY_FLIGHT_BY_ORIGIN_AIRPORT", QUERY_FLIGHT_BY_ORIGIN_AIRPORT);
    ("QUERY_AVG_PERCENTAGE_DELAYED_FLIGHTS", QUERY_AVG_PERCENTAGE_DELAYED_FLIGHTS);
    ("QUERY_LONG_LAT", QUERY_LONG_LAT) ].

(** *** The statements the executed texts denote *)

(** In every text the unqualified [DEPARTURE_DELAY] of [ORDER BY] names no
    result alias, so it resolves to the column of [flights]. *)

Definition delayed : expr :=
  And (Coalesce (Col f_DEPARTURE_DELAY) (Lit 0))
      (Ge (Col f_DEPARTURE_DELAY) (Lit 20)).

Definition delayed_items : list item :=
  [ Column f_ID None;
    Column f_ORIGIN_AIRPORT None;
    Column f_DESTINATION_AIRPORT None;
    Column a_AIRLINE None;
    Column f_DEPARTURE_DELAY (Some "DELAY") ].

Definition flight_by_id : select := {|
  items := [ Star_flights;
             Column a_AIRLINE None;
             Column f_ID (Some "FLIGHT_ID");
             Column f_DEPARTURE_DELAY (Some "DELAY") ];
  from := flights_JOIN_airlines;
  on := Equals (Col f_AIRLINE) (Col a_ID);
  where_ := Equals (Col f_ID) (Param "id");
  order_by_desc := None
|}.

Definition flight_by_date : select := {|
  items := delayed_items;
  from := airlines_JOIN_flights;
  on := Equals (Col a_ID) (Col f_AIRLINE);
  where_ :=
    And (And (And (And (Coalesce (Col f_DEPARTURE_DELAY) (Lit 0))
                       (Equals (Col f_DAY) (Param "day")))
                  (Equals (Col f_MONTH) (Param "month")))
             (Equals (Col f_YEAR) (Param "year")))
        (Ge (Col f_DEPARTURE_DELAY) (Lit 20));
  order_by_desc := Some (Col f_DEPARTURE_DELAY)
|}.

Definition flight_by_airline : select := {|
  items := delayed_items;
  from := airlines_JOIN_flights;
  on := Equals (Col a_ID) (Col f_AIRLINE);
  where_ := And delayed (Like (Lower (Col a_AIRLINE)) (Lower (Param "airline")));
  order_by_desc := Some (Col f_DEPARTURE_DELAY)
|}.

Definition flight_by_origin_airport : select := {|
  items := delayed_items;
  from := airlines_JOIN_flights;
  on := Equals (Col a_ID) (Col f_AIRLINE);
  where_ := And delayed (Equals (Col f_ORIGIN_AIRPORT) (Param "origin_airport"));
  order_by_desc := Some (Col f_DEPARTURE_DELAY)
|}.

(** The store's reading of a statement text.  The fragment covers the four
    texts the methods execute; any other text is refused. *)
Definition prepare (sql : string) : option select :=
  if String.eqb sql QUERY_FLIGHT_BY_ID then Some flight_by_id
  else if String.eqb sql QUERY_FLIGHT_BY_DATE then Some flight_by_date
  else if String.eqb sql QUERY_FLIGHT_BY_AIRLINE then Some flight_by_airline
  else if String.eqb sql QUERY_FLIGHT_BY_ORIGIN_AIRPORT then Some flight_by_origin_airport
  else None.

(** ** The world and its monad *)

(** What can go wrong between the accessor and its store while a call runs
    (a locked file, a dropped connection, exhausted memory, ...). *)
Inductive condition : Type :=
| Healthy
| Fails_connect (e : exn)
| Fails_execute (e : exn)
| Fails_fetchall (e : exn).

Record world : Type := {
  store : database;
  link : condition;
  checked_out : nat;         (* connections out of the pool *)
  stdout : list string
}.

Definition M (A : Type) : Type := world -> outcome A * world.

Definition ret {A} (a : A) : M A := fun w => (Return a, w).

Definition raise {A} (e : exn) : M A := fun w => (Raise e, w).

Definition bind {A B} (m : M A) (k : A -> M B) : M B :=
  fun w =>
    match m w with
    | (Return a, w') => k a w'
    | (Raise e, w') => (Raise e, w')
    end.

Definition lift {A} (o : outcome A) : M A := fun w => (o, w).

Declare Scope py_scope.
Delimit Scope py_scope with py.
Notation "x <- m ;; k" := (bind m (fun x => k))
  (at level 61, m at next level, right associativity) : py_scope.
Notation "m ;; k" := (bind m (fun _ => k))
  (at level 61, right associativity) : py_scope.
Local Open Scope py_scope.

(** [print(line)] *)
Definition print (line : string) : M unit :=
  fun w => (Return tt, {| store := store w; link := link w;
                          checked_out := checked_out w;
                          stdout := stdout w ++ [line] |}).

(** [try: body except C1 as e: h1 except C2 as e: h2 ...]: the first clause
    whose class test accepts the exception handles it. *)
Definition clause (A : Type) : Type := (exn -> bool) * (exn -> M A).

Fixpoint dispatch {A} (clauses : list (clause A)) (e : exn) : M A :=
  match clauses with
  | [] => raise e
  | (accepts, handler) :: clauses' =>
      if accepts e then handler e else dispatch clauses' e
  end.

Definition try_except {A} (body : M A) (clauses : list (clause A)) : M A :=
  fun w =>
    match body w with
    | (Return a, w') => (Return a, w')
    | (Raise e, w') => dispatch clauses e w'
    end.

(** [with enter as r: body]: [leave] runs on both ways out of [body]. *)
Definition with_ {R A} (enter : M R) (leave : R -> M unit) (body : R -> M A) : M A :=
  r <- enter ;;
  fun w =>
    match body r w with
    | (Return a, w') => (x <- leave r ;; ret a) w'
    | (Raise e, w') => (x <- leave r ;; raise e) w'
    end.

(** ** The engine, its connections and cursors *)

Record Engine : Type := { url : string }.
Record Connection : Type := { engine : Engine }.
Record TextClause : Type := { sql_of : string }.
Record CursorResult : Type := { pending : list record }.

Definition text (query : string) : TextClause := {| sql_of := query |}.

Definition connect (e : Engine) : M Connection :=
  fun w =>
    match link w with
    | Fails_connect x => (Raise x, w)
    | _ => (Return {| engine := e |},
            {| store := store w; link := link w;
               checked_out := S (checked_out w); stdout := stdout w |})
    end.

Definition close (c : Connection) : M unit :=
  fun w => (Return tt, {| store := store w; link := link w;
                          checked_out := pred (checked_out w); stdout := stdout w |}).

Definition int64 (n : Z) : bool := (Z.leb (- 2 ^ 63) n && Z.ltb n (2 ^ 63))%bool.

(** What the driver makes of one Python argument. *)
Definition bind_value (v : pyval) : outcome value :=
  match v with
  | PyNone => Return VNull
  | PyInt n =>
      if int64 n then Return (VInt n)
      else Raise {| exn_type := OverflowError;
                    exn_str := "Python int too large to convert to SQLite INTEGER" |}
  | PyStr s => Return (VText s)
  | PyUserString _ | PyObject _ =>
      Raise {| exn_type := ProgrammingError;
               exn_str := ("Error binding parameter: type " ++ type_name_of v
                           ++ " is not supported")%string |}
  end.

Fixpoint get (key : string) (d : dict) : option pyval :=
  match d with
  | [] => None
  | (k, v) :: d' => if String.eqb k key then Some v else get key d'
  end.

(** Every placeholder of the statement needs a key of the dictionary; keys
    the statement does not name are ignored. *)
Fixpoint required (names : list string) (params : dict) : outcome (list (string * pyval)) :=
  match names with
  | [] => Return []
  | n :: names' =>
      match get n params with
      | None => Raise {| exn_type := StatementError;
                         exn_str := ("A value is required for bind parameter " ++ n)%string |}
      | Some v =>
          match required names' params with
          | Return l => Return ((n, v) :: l)
          | Raise e => Raise e
          end
      end
  end.

Fixpoint bind_values (args : list (string * pyval)) : outcome bindings :=
  match args with
  | [] => Return []
  | (n, v) :: args' =>
      match bind_value v with
      | Raise e => Raise e
      | Return x =>
          match bind_values args' with
          | Return b => Return ((n, x) :: b)
          | Raise e => Raise e
          end
      end
  end.

Definition bind_params (q : select) (params : dict) : outcome bindings :=
  match required (select_placeholders q) params with
  | Raise e => Raise e
  | Return args => bind_values args
  end.

(** [connection.execute(query, params)]: read the text, bind the arguments,
    run the statement on the store (a sorted result is complete before its
    first row is handed out, so a failing statement fails here). *)
Definition execute (c : Connection) (query : TextClause) (params : dict) : M CursorResult :=
  fun w =>
    match prepare (sql_of query) with
    | None => (Raise {| exn_type := OperationalError; exn_str := "syntax error" |}, w)
    | Some q =>
        match bind_params q params with
        | Raise e => (Raise e, w)
        | Return b =>
            match link w with
            | Fails_execute x => (Raise x, w)
            | _ =>
                if too_complex (store w) b q then
                  (Raise {| exn_type := OperationalError;
                            exn_str := "LIKE or GLOB pattern too complex" |}, w)
                else (Return {| pending := run_select (store w) b q |}, w)
            end
        end
    end.

(** [results.fetchall()] *)
Definition fetchall (r : CursorResult) : M (list record) :=
  fun w =>
    match link w with
    | Fails_fetchall x => (Raise x, w)
    | _ => (Return (pending r), w)
    end.

(** ** class FlightData *)

Record FlightData : Type := { _engine : Engine }.

(** [create_engine] belongs to the library: which connection strings it
    accepts is left open. *)
Section Construction.
Variable create_engine : string -> outcome Engine.

Definition __init__ (db_uri : string) : M FlightData :=
  e <- lift (create_engine db_uri) ;;
  ret {| _engine := e |}.
End Construction.

(** The body of the [try] in [_execute_query]. *)
Definition query_body (self : FlightData) (query : string) (params : dict) : M (list record) :=
  with_ (connect (_engine self)) close (fun connection =>
    let query := text query in
    results <- execute connection query params ;;
    fetchall results).

Definition _execute_query (self : FlightData) (query : string) (params : dict) : M (list record) :=
  try_except
    (query_body self query params)
    [ (is_SQLAlchemyError,
       fun e => print ("SQLAlchemy Error: " ++ exn_str e)%string ;; ret []);
      (is_Exception,
       fun e => print ("Unexpected Error: " ++ exn_str e)%string ;; ret []) ].

Definition get_flight_by_id (self : FlightData) (flight_id : pyval) : M (list record) :=
  let params := [("id", flight_id)] in
  _execute_query self QUERY_FLIGHT_BY_ID params.

Definition get_flights_by_date (self : FlightData) (day month year : pyval) : M (list record) :=
  let params := [("day", day); ("month", month); ("year", year)] in
  _execute_query self QUERY_FLIGHT_BY_DATE params.

Definition get_delayed_flights_by_airline (self : FlightData) (airline : pyval) : M (list record) :=
  opened <- lift (str_add "%" airline) ;;
  pattern <- lift (add_str opened "%") ;;
  let params := [("airline", pattern)] in
  _execute_query self QUERY_FLIGHT_BY_AIRLINE params.

Definition get_delayed_flights_by_airport (self : FlightData) (airport_input : pyval) : M (list record) :=
  let params := [("origin_airport", airport_input)] in
  _execute_query self QUERY_FLIGHT_BY_ORIGIN_AIRPORT params.

(** The four lookups as one type of calls. *)
Inductive lookup : Type :=
| by_identifier (flight_id : pyval)
| by_date (day month year : pyval)
| by_carrier (airline : pyval)
| by_origin (airport_input : pyval).

Definition call (self : FlightData) (l : lookup) : M (list record) :=
  match l with
  | by_identifier flight_id => get_flight_by_id self flight_id
  | by_date day month year => get_flights_by_date self day month year
  | by_carrier airline => get_delayed_flights_by_airline self airline
  | by_origin airport_input => get_delayed_flights_by_airport self airport_input
  end.

(** *** What a call hands to the helper *)

Definition params_of (l : lookup) : outcome dict :=
  match l with
  | by_identifier flight_id => Return [("id", flight_id)]
  | by_date day month year => Return [("day", day); ("month", month); ("year", year)]
  | by_carrier airline =>
      match str_add "%" airline with
      | Raise e => Raise e
      | Return opened =>
          match add_str opened "%" with
          | Raise e => Raise e
          | Return pattern => Return [("airline", pattern)]
          end
      end
  | by_origin airport_input => Return [("origin_airport", airport_input)]
  end.

Definition template_of (l : lookup) : string :=
  match l with
  | by_identifier _ => QUERY_FLIGHT_BY_ID
  | by_date _ _ _ => QUERY_FLIGHT_BY_DATE
  | by_carrier _ => QUERY_FLIGHT_BY_AIRLINE
  | by_origin _ => QUERY_FLIGHT_BY_ORIGIN_AIRPORT
  end.

Definition statement_of (l : lookup) : select :=
  match l with
  | by_identifier _ => flight_by_id
  | by_date _ _ _ => flight_by_date
  | by_carrier _ => flight_by_airline
  | by_origin _ => flight_by_origin_airport
  end.

(** The public lookup methods of the class, by name, with the text each
    executes. *)
Definition read_operations : list (string * string) :=
  [ ("get_flight_by_id", QUERY_FLIGHT_BY_ID);
    ("get_flights_by_date", QUERY_FLIGHT_BY_DATE);
    ("get_delayed_flights_by_airline", QUERY_FLIGHT_BY_AIRLINE);
    ("get_delayed_flights_by_airport", QUERY_FLIGHT_BY_ORIGIN_AIRPORT) ].

Definition method_of (l : lookup) : string :=
  match l with
  | by_identifier _ => "get_flight_by_id"
  | by_date _ _ _ => "get_flights_by_date"
  | by_carrier _ => "get_delayed_flights_by_airline"
  | by_origin _ => "get_delayed_flights_by_airport"
  end.

(** What the body of the [try] comes to, as a function of store and link. *)
Definition body_outcome (db : database) (c : condition) (query : string) (params : dict)
  : outcome (list record) :=
  match c with
  | Fails_connect x => Raise x
  | _ =>
      match prepare query with
      | None => Raise {| exn_type := OperationalError; exn_str := "syntax error" |}
      | Some q =>
          match bind_params q params with
          | Raise e => Raise e
          | Return b =>
              match c with
              | Fails_execute x => Raise x
              | _ =>
                  if too_complex db b q then
                    Raise {| exn_type := OperationalError;
                             exn_str := "LIKE or GLOB pattern too complex" |}
                  else
                    match c with
                    | Fails_fetchall x => Raise x
                    | _ => Return (run_select db b q)
                    end
              end
          end
      end
  end.

(** The line a handler of [_execute_query] prints for [e]. *)
Definition report (e : exn) : string :=
  if is_SQLAlchemyError e then ("SQLAlchemy Error: " ++ exn_str e)%string
  else ("Unexpected Error: " ++ exn_str e)%string.

Definition logged (line : string) (w : world) : world := snd (print line w).

(** ** A small store *)

Module Example.
Definition delta : airlines.row :=
  {| airlines.ID := VText "DL"; airlines.AIRLINE := VText "Delta Air Lines" |}.

Definition american : airlines.row :=
  {| airlines.ID := VText "AA"; airlines.AIRLINE := VText "American Airlines" |}.

Definition flight (id day : Z) (carrier origin : string) (delay : option Z) : flights.row :=
  {| flights.ID := VInt id;
     flights.YEAR := VInt 2015; flights.MONTH := VInt 1; flights.DAY := VInt day;
     flights.AIRLINE := VText carrier;
     flights.ORIGIN_AIRPORT := VText origin; flights.DESTINATION_AIRPORT := VText "JFK";
     flights.DEPARTURE_DELAY := of_int delay;
     flights.others := [VInt 760] |}.

(** Flight 42 (35 minutes late on 1 January 2015), some neighbours, and
    flight 45 whose carrier code names no carrier. *)
Definition db : database :=
  {| flights_other_columns := ["DISTANCE"];
     flights_rows :=
       [ flight 42 1 "DL" "ATL" (Some 35);
         flight 43 1 "AA" "ATL" (Some 50);
         flight 44 1 "AA" "LAX" None;
         flight 45 2 "ZZ" "LAX" (Some 90);
         flight 46 1 "DL" "LAX" (Some 19) ];
     airlines_rows := [american; delta] |}.

Definition healthy : world :=
  {| store := db; link := Healthy; checked_out := 0; stdout := [] |}.

Definition dropped : world :=
  {| store := db;
     link := Fails_execute {| exn_type := OperationalError; exn_str := "connection dropped" |};
     checked_out := 0; stdout := [] |}.

Definition accessor : FlightData := {| _engine := {| url := "sqlite:///data/flights.sqlite3" |} |}.

(** A constructor that refuses the empty connection string. *)
Definition create_engine (db_uri : string) : outcome Engine :=
  if String.eqb db_uri "" then
    Raise {| exn_type := ArgumentError; exn_str := "Could not parse SQLAlchemy URL" |}
  else Return {| url := db_uri |}.

(** A second store, of three flights out of Seattle on 3 January 2015 and
    two carriers: a carrier whose name begins with a capital E acute
    (character 201), and a carrier without name; the first flight has the
    text [5 min] where its delay should be. *)
Definition E_ACUTE : ascii := ascii_of_nat 201.
Definition e_acute : ascii := ascii_of_nat 233.

Definition ecole : airlines.row :=
  {| airlines.ID := VText "EC"; airlines.AIRLINE := VText (String E_ACUTE "cole Air") |}.

Definition unnamed : airlines.row :=
  {| airlines.ID := VText "NN"; airlines.AIRLINE := VNull |}.

Definition seattle (id : Z) (carrier : string) (delay : value) : flights.row :=
  {| flights.ID := VInt id;
     flights.YEAR := VInt 2015; flights.MONTH := VInt 1; flights.DAY := VInt 3;
     flights.AIRLINE := VText carrier;
     flights.ORIGIN_AIRPORT := VText "SEA"; flights.DESTINATION_AIRPORT := VText "JFK";
     flights.DEPARTURE_DELAY := delay;
     flights.others := [] |}.

Definition odd_db : database :=
  {| flights_other_columns := [];
     flights_rows :=
       [ seattle 50 "EC" (VText "5 min");
         seattle 51 "NN" (VInt 90);
         seattle 52 "EC" (VInt 30) ];
     airlines_rows := [unnamed; ecole] |}.

Definition odd : world :=
  {| store := odd_db; link := Healthy; checked_out := 0; stdout := [] |}.
End Example.

(** *** Reading a delay off a record *)




(** [r1] stands at or above [r2] in the store's order of values. *)
Definition delay_not_below (r1 r2 : record) : Prop :=
  exists v1 v2,
    field "DELAY" r1 = Some v1 /\ field "DELAY" r2 = Some v2 /\ value_compare v2 v1 <> Gt.



(** *** Finding rows by key *)

(** Two cells hold the same integer or the same text. *)
Definition same_value (x y : value) : bool :=
  match x, y with
  | VInt m, VInt n => Z.eqb m n
  | VText s, VText t => String.eqb s t
  | _, _ => false
  end.

(** The flights row carries identifier [id]. *)
Definition has_id (id : Z) (f : flights.row) : bool :=
  same_value (flights.ID f) (VInt id).

(** The carrier code of the flights row [f] is the code of carrier [a]. *)
Definition has_code (f : flights.row) (a : airlines.row) : bool :=
  same_value (flights.AIRLINE f) (airlines.ID a).

(** No two of the listed strings are equal. *)
Fixpoint distinct (l : list string) : bool :=
  match l with
  | [] => true
  | x :: l' => (negb (existsb (String.eqb x) l') && distinct l')%bool
  end.

(** *** What the delayed lookups select *)

(** What the two delay conjuncts of the texts make of a delay cell: an
    integer passes from 20 on, a text when its numeric prefix is not zero
    (it stands above 20 as every text does), NULL never. *)
Definition passes_delay_filter (v : value) : bool :=
  match v with
  | VNull => false
  | VInt d => Z.leb 20 d
  | VText s => text_nonzero s
  end.




(** The carrier's name matches the pattern as the carrier text compares
    them: both lowered, then [LIKE].  A carrier without name matches
    nothing. *)
Definition carrier_like (pattern : string) (a : airlines.row) : bool :=
  match as_text (airlines.AIRLINE a) with
  | Some name => like (until_nul (lower pattern)) (until_nul (lower name))
  | None => false
  end.



(** Two characters are the same, or the two cases of one of the 26 letters
    of ASCII. *)
Definition same_letter (c d : ascii) : bool :=
  let m := nat_of_ascii c in
  let n := nat_of_ascii d in
  (Nat.eqb m n
   || (Nat.leb 65 m && Nat.leb m 90 && Nat.eqb n (m + 32))
   || (Nat.leb 65 n && Nat.leb n 90 && Nat.eqb m (n + 32)))%bool.

(** Two texts differ at most in the case of ASCII letters. *)
Fixpoint same_up_to_ascii_case (s t : string) : bool :=
  match s, t with
  | EmptyString, EmptyString => true
  | String c s', String d t' => (same_letter c d && same_up_to_ascii_case s' t')%bool
  | _, _ => false
  end.

(** Two characters are the same, or the two cases of one letter of ASCII or
    of Latin-1 (["A"]-["Z"], and the accented capitals 192-222 but the
    multiplication sign, each 32 below its small letter). *)
Definition same_letter_latin1 (c d : ascii) : bool :=
  let m := nat_of_ascii c in
  let n := nat_of_ascii d in
  let capital k :=
    ((Nat.leb 65 k && Nat.leb k 90)
     || (Nat.leb 192 k && Nat.leb k 222 && negb (Nat.eqb k 215)))%bool in
  (Nat.eqb m n
   || (capital m && Nat.eqb n (m + 32))
   || (capital n && Nat.eqb m (n + 32)))%bool.

(** Two texts differ at most in the case of their letters. *)
Fixpoint same_up_to_case (s t : string) : bool :=
  match s, t with
  | EmptyString, EmptyString => true
  | String c s', String d t' => (same_letter_latin1 c d && same_up_to_case s' t')%bool
  | _, _ => false
  end.


(** The world after a run of lookups, made one after the other. *)
Definition after (self : FlightData) (ls : list lookup) (w : world) : world :=
  fold_left (fun w' l => snd (call self l w')) ls w.

(** * Properties *)

(** ** The order of values and the descending sort *)


Section SortingFacts.
Context {A : Type} (key : A -> value).

Lemma insert_desc_In (x z : A) (l : list A) :
  In z (insert_desc key x l) <-> z = x \/ In z l.
Proof.
  induction l as [|y l IH]; simpl.
  - intuition congruence.
  - destruct (value_compare (key y) (key x)); simpl; try rewrite IH; intuition congruence.
Qed.

Lemma sort_desc_In (z : A) (l : list A) :
  In z (sort_desc key l) <-> In z l.
Proof.
  induction l as [|x l IH]; simpl; [tauto|].
  rewrite insert_desc_In, IH. intuition congruence.
Qed.



End SortingFacts.

(** ** Rows a statement selects *)

Lemma joined_In (db : database) (j : join) (f : flights.row) (a : airlines.row) :
  In (f, a) (joined db j) <-> In f (flights_rows db) /\ In a (airlines_rows db).
Proof.
  destruct j; unfold joined; rewrite in_flat_map; split.
  - intros (x & Hx & Hin). apply in_map_iff in Hin as (y & Heq & Hy).
    inversion Heq; subst. tauto.
  - intros [Hf Ha]. exists f. split; [assumption|]. apply in_map_iff. eauto.
  - intros (x & Hx & Hin). apply in_map_iff in Hin as (y & Heq & Hy).
    inversion Heq; subst. tauto.
  - intros [Hf Ha]. exists a. split; [assumption|]. apply in_map_iff. eauto.
Qed.

Lemma selected_In (db : database) (b : bindings) (q : select) (f : flights.row) (a : airlines.row) :
  In (f, a) (selected db b q) <->
  In f (flights_rows db) /\ In a (airlines_rows db)
  /\ holds (eval b f a (on q)) = true /\ holds (eval b f a (where_ q)) = true.
Proof.
  unfold selected.
  assert (Hkept : forall fa : flights.row * airlines.row,
             In fa (filter (fun fa => (holds (eval b (fst fa) (snd fa) (on q))
                                       && holds (eval b (fst fa) (snd fa) (where_ q)))%bool)
                           (joined db (from q)))
             <-> In fa (joined db (from q))
                 /\ holds (eval b (fst fa) (snd fa) (on q)) = true
                 /\ holds (eval b (fst fa) (snd fa) (where_ q)) = true).
  { intros fa. rewrite filter_In, andb_true_iff. tauto. }
  destruct (order_by_desc q); [rewrite sort_desc_In|];
    rewrite Hkept, joined_In; simpl; tauto.
Qed.


(** ** Conditions *)

Lemma string_compare_refl (s : string) : String.compare s s = Eq.
Proof.
  pose proof (String.compare_antisym s s) as H.
  destruct (String.compare s s); trivial; discriminate.
Qed.

Lemma string_compare_eqb (s t : string) :
  match String.compare s t with Eq => true | _ => false end = String.eqb s t.
Proof.
  destruct (String.eqb_spec s t) as [->|Hne].
  - rewrite string_compare_refl. reflexivity.
  - destruct (String.compare s t) eqn:Hc; trivial.
    apply String.compare_eq_iff in Hc. contradiction.
Qed.

Lemma holds_of_bool (c : bool) : holds (of_bool c) = c.
Proof. destruct c; reflexivity. Qed.

Lemma holds_sql_eq (x y : value) : holds (sql_eq x y) = same_value x y.
Proof.
  destruct x as [|m|s], y as [|n|t]; try reflexivity; simpl.
  - rewrite holds_of_bool, Z.eqb_compare. reflexivity.
  - rewrite holds_of_bool. apply string_compare_eqb.
Qed.

Lemma same_value_sym (x y : value) : same_value x y = same_value y x.
Proof.
  destruct x, y; simpl; trivial; [apply Z.eqb_sym|apply String.eqb_sym].
Qed.

Lemma same_value_eq (x y : value) : same_value x y = true -> x = y.
Proof.
  destruct x, y; simpl; try discriminate; intros H.
  - apply Z.eqb_eq in H. congruence.
  - apply String.eqb_eq in H. congruence.
Qed.



Lemma holds_and_bool (x y : value) : holds (sql_and x y) = (holds x && holds y)%bool.
Proof.
  unfold holds, sql_and.
  destruct (truth x) as [[|]|], (truth y) as [[|]|]; reflexivity.
Qed.

Lemma holds_And (b : bindings) (f : flights.row) (a : airlines.row) (x y : expr) :
  holds (eval b f a (And x y)) = (holds (eval b f a x) && holds (eval b f a y))%bool.
Proof. apply holds_and_bool. Qed.

Lemma holds_delayed_bool (b : bindings) (f : flights.row) (a : airlines.row) :
  holds (eval b f a delayed) = passes_delay_filter (flights.DEPARTURE_DELAY f).
Proof.
  unfold delayed. rewrite holds_And. simpl.
  destruct (flights.DEPARTURE_DELAY f) as [|d|s]; simpl; trivial.
  - unfold holds. simpl.
    destruct (Z.eqb_spec d 0), (Z.compare_spec d 20), (Z.leb_spec 20 d);
      simpl; trivial; lia.
  - unfold holds. simpl. destruct (text_nonzero s); reflexivity.
Qed.


Lemma holds_join (b : bindings) (f : flights.row) (a : airlines.row) :
  holds (eval b f a (Equals (Col a_ID) (Col f_AIRLINE))) = has_code f a.
Proof. simpl. rewrite holds_sql_eq. apply same_value_sym. Qed.

Lemma holds_join_by_id (b : bindings) (f : flights.row) (a : airlines.row) :
  holds (eval b f a (Equals (Col f_AIRLINE) (Col a_ID))) = has_code f a.
Proof. simpl. apply holds_sql_eq. Qed.

Lemma holds_int_param (b : bindings) (f : flights.row) (a : airlines.row)
      (c : column) (name : string) (n : Z) :
  column_affinity c = INTEGER ->
  bound name b = VInt n ->
  holds (eval b f a (Equals (Col c) (Param name))) = same_value (column_value c f a) (VInt n).
Proof.
  intros Haff Hb. simpl. rewrite Haff, Hb. simpl. apply holds_sql_eq.
Qed.


Lemma holds_null_param (b : bindings) (f : flights.row) (a : airlines.row)
      (c : column) (name : string) :
  bound name b = VNull ->
  holds (eval b f a (Equals (Col c) (Param name))) = false.
Proof.
  intros Hb. simpl. rewrite Hb.
  destruct (column_affinity c), (column_value c f a); reflexivity.
Qed.

(** ** The model at work *)

(** Flight 42 is found by its identifier with its delay of 35, is among the
    delayed flights of 1 January 2015 (after flight 43, which was later
    still) and not among those of 2 January. *)
Example flight_42_scenario :
  (exists r,
      fst (get_flight_by_id Example.accessor (PyInt 42) Example.healthy) = Return [r]
      /\ field "DELAY" r = Some (VInt 35))
  /\ fst (get_flights_by_date Example.accessor (PyInt 1) (PyInt 1) (PyInt 2015) Example.healthy)
     = Return
         [ [("ID", VInt 43); ("ORIGIN_AIRPORT", VText "ATL");
            ("DESTINATION_AIRPORT", VText "JFK");
            ("AIRLINE", VText "American Airlines"); ("DELAY", VInt 50)];
           [("ID", VInt 42); ("ORIGIN_AIRPORT", VText "ATL");
            ("DESTINATION_AIRPORT", VText "JFK");
            ("AIRLINE", VText "Delta Air Lines"); ("DELAY", VInt 35)] ]
  /\ fst (get_flights_by_date Example.accessor (PyInt 2) (PyInt 1) (PyInt 2015) Example.healthy)
     = Return [].
Proof. split; [eexists; split; reflexivity|split; reflexivity]. Qed.

(** ** The guarded helper *)

Lemma query_body_eq (self : FlightData) (query : string) (params : dict) (w : world) :
  query_body self query params w = (body_outcome (store w) (link w) query params, w).
Proof.
  destruct w as [db c n out].
  unfold query_body, with_, bind, connect, execute, fetchall, close, ret, raise,
    body_outcome, text; simpl.
  destruct c as [|x|x|x]; simpl; trivial;
    destruct (prepare query) as [q|]; simpl; trivial;
    destruct (bind_params q params) as [b|e]; simpl; trivial;
    destruct (too_complex db b q); reflexivity.
Qed.

Lemma _execute_query_eq (self : FlightData) (query : string) (params : dict) (w : world) :
  _execute_query self query params w =
  match body_outcome (store w) (link w) query params with
  | Return rows => (Return rows, w)
  | Raise e => (Return [], logged (report e) w)
  end.
Proof.
  unfold _execute_query, try_except. rewrite query_body_eq.
  destruct (body_outcome (store w) (link w) query params) as [rows|e]; [reflexivity|].
  unfold report, is_SQLAlchemyError. destruct e as [[] msg]; reflexivity.
Qed.

Lemma call_eq (self : FlightData) (l : lookup) (w : world) :
  call self l w =
  match params_of l with
  | Return params => _execute_query self (template_of l) params w
  | Raise e => (Raise e, w)
  end.
Proof.
  destruct l as [v|d m y|v|v]; try reflexivity.
  destruct v; reflexivity.
Qed.

Lemma prepare_template (l : lookup) : prepare (template_of l) = Some (statement_of l).
Proof. destruct l; vm_compute; reflexivity. Qed.

Lemma prepare_by_id : prepare QUERY_FLIGHT_BY_ID = Some flight_by_id.
Proof. exact (prepare_template (by_identifier PyNone)). Qed.

Lemma prepare_by_airline : prepare QUERY_FLIGHT_BY_AIRLINE = Some flight_by_airline.
Proof. exact (prepare_template (by_carrier PyNone)). Qed.

Lemma prepare_by_date : prepare QUERY_FLIGHT_BY_DATE = Some flight_by_date.
Proof. exact (prepare_template (by_date PyNone PyNone PyNone)). Qed.

Lemma prepare_by_origin : prepare QUERY_FLIGHT_BY_ORIGIN_AIRPORT = Some flight_by_origin_airport.
Proof. exact (prepare_template (by_origin PyNone)). Qed.

Lemma call_returns (self : FlightData) (l : lookup) (params : dict) (w : world) :
  params_of l = Return params ->
  exists rows w', call self l w = (Return rows, w').
Proof.
  intros Hp. rewrite call_eq, Hp, _execute_query_eq.
  destruct (body_outcome (store w) (link w) (template_of l) params); eauto.
Qed.

Lemma call_rows (self : FlightData) (l : lookup) (w w' : world) (rows : list record) :
  call self l w = (Return rows, w') ->
  rows = [] \/ exists b, rows = run_select (store w) b (statement_of l).
Proof.
  rewrite call_eq. destruct (params_of l) as [params|e]; [|discriminate].
  rewrite _execute_query_eq. unfold body_outcome. rewrite prepare_template.
  destruct (link w) as [|x|x|x], (bind_params (statement_of l) params) as [b|e'];
    try destruct (too_complex (store w) b (statement_of l));
    intros H; inversion H; subst; eauto.
Qed.

(** ** Patterns within the limit *)

Lemma existsb_never {A : Type} (p : A -> bool) (l : list A) :
  (forall x, p x = false) -> existsb p l = false.
Proof.
  intros Hp. induction l as [|x l IH]; simpl; [reflexivity|]. rewrite Hp. assumption.
Qed.

Lemma too_complex_without_carrier_conjunct (db : database) (b : bindings) (q : select) :
  filter (fun c => (reads_airlines c && negb (reads_flights c))%bool) (conjuncts (where_ q)) = [] ->
  too_complex db b q = false.
Proof.
  intros Hnone. unfold too_complex. rewrite Hnone.
  apply existsb_never. intros f. apply existsb_never. intros a. apply andb_false_r.
Qed.

Lemma too_complex_by_id (db : database) (b : bindings) : too_complex db b flight_by_id = false.
Proof. apply too_complex_without_carrier_conjunct. reflexivity. Qed.

Lemma too_complex_by_date (db : database) (b : bindings) : too_complex db b flight_by_date = false.
Proof. apply too_complex_without_carrier_conjunct. reflexivity. Qed.

Lemma too_complex_by_origin (db : database) (b : bindings) :
  too_complex db b flight_by_origin_airport = false.
Proof. apply too_complex_without_carrier_conjunct. reflexivity. Qed.

Lemma lower_char_bytes (c : ascii) :
  Nat.ltb (nat_of_ascii (lower_char c)) 128 = Nat.ltb (nat_of_ascii c) 128.
Proof. destruct c as [[] [] [] [] [] [] [] []]; reflexivity. Qed.

Lemma utf8_bytes_lower (s : string) : utf8_bytes (lower s) = utf8_bytes s.
Proof.
  induction s as [|c s IH]; simpl; [reflexivity|]. rewrite lower_char_bytes, IH. reflexivity.
Qed.

Lemma existsb_same {A : Type} (p q : A -> bool) (l : list A) :
  (forall x, p x = q x) -> existsb p l = existsb q l.
Proof.
  intros Hpq. induction l as [|x l IH]; simpl; [reflexivity|]. rewrite Hpq, IH. reflexivity.
Qed.

(** The statement of the carrier lookup has one pattern, the bound one: it
    is refused when the pattern is too long and a flight passes the delay
    filter while the carrier table has a row to compare. *)
Lemma too_complex_by_airline (db : database) (p : string) :
  too_complex db [("airline", VText p)] flight_by_airline
  = existsb (fun f => existsb (fun a =>
       (passes_delay_filter (flights.DEPARTURE_DELAY f)
        && Z.ltb LIKE_PATTERN_LENGTH (utf8_bytes p))%bool) (airlines_rows db))
      (flights_rows db).
Proof.
  unfold too_complex. apply existsb_same. intros f. apply existsb_same. intros a.
  pose proof (holds_delayed_bool [("airline", VText p)] f a) as Hd.
  unfold delayed in Hd. rewrite holds_And in Hd.
  cbn [where_ flight_by_airline conjuncts delayed app filter reads_airlines reads_flights
       of_flights negb orb andb forallb existsb like_patterns].
  rewrite andb_true_r, Hd, !orb_false_r.
  cbn [eval bound String.eqb Ascii.eqb Bool.eqb sql_lower as_text too_long].
  rewrite utf8_bytes_lower. reflexivity.
Qed.

Lemma too_complex_within_limit (db : database) (p : string) :
  (utf8_bytes p <= LIKE_PATTERN_LENGTH)%Z ->
  too_complex db [("airline", VText p)] flight_by_airline = false.
Proof.
  intros Hlen. rewrite too_complex_by_airline.
  apply existsb_never. intros f. apply existsb_never. intros a.
  replace (Z.ltb LIKE_PATTERN_LENGTH (utf8_bytes p)) with false
    by (symmetry; apply Z.ltb_ge; assumption).
  apply andb_false_r.
Qed.

Lemma too_complex_same_length (db : database) (p1 p2 : string) :
  utf8_bytes p1 = utf8_bytes p2 ->
  too_complex db [("airline", VText p1)] flight_by_airline
  = too_complex db [("airline", VText p2)] flight_by_airline.
Proof. intros Hlen. rewrite !too_complex_by_airline, Hlen. reflexivity. Qed.

(** ** Failure semantics *)

(** C1.  For each of the four lookups, once its parameter dictionary is
    built: whenever the body of the guarded helper raises (a store-level
    fault or any other exception), the call returns the empty sequence and
    standard output gains exactly one line reporting the fault; and in
    every case the call returns, it never raises. *)
Theorem query_faults_are_swallowed
  (self : FlightData) (l : lookup) (params : dict) (w : world) :
  params_of l = Return params ->
  (forall e w1,
      query_body self (template_of l) params w = (Raise e, w1) ->
      exists line w',
        call self l w = (Return [], w')
        /\ stdout w' = stdout w1 ++ [line]
        /\ (line = ("SQLAlchemy Error: " ++ exn_str e)%string
            \/ line = ("Unexpected Error: " ++ exn_str e)%string))
  /\ (exists rows w', call self l w = (Return rows, w')).
Proof.
  intros Hp. split.
  - intros e w1. rewrite query_body_eq. intros Hbody. inversion Hbody; subst w1.
    exists (report e), (logged (report e) w). repeat split.
    + rewrite call_eq, Hp, _execute_query_eq, H0. reflexivity.
    + unfold report. destruct (is_SQLAlchemyError e); tauto.
  - eapply call_returns; eassumption.
Qed.

Lemma query_faults_are_swallowed_witness :
  (forall e w1,
      query_body Example.accessor QUERY_FLIGHT_BY_ID [("id", PyInt 42)] Example.dropped
      = (Raise e, w1) ->
      exists line w',
        call Example.accessor (by_identifier (PyInt 42)) Example.dropped = (Return [], w')
        /\ stdout w' = stdout w1 ++ [line]
        /\ (line = ("SQLAlchemy Error: " ++ exn_str e)%string
            \/ line = ("Unexpected Error: " ++ exn_str e)%string))
  /\ (exists rows w',
        call Example.accessor (by_identifier (PyInt 42)) Example.dropped = (Return rows, w')).
Proof.
  exact (query_faults_are_swallowed Example.accessor (by_identifier (PyInt 42))
           [("id", PyInt 42)] Example.dropped eq_refl).
Defined.

(** C6, as the code has it.  A fault of [create_engine] leaves [__init__]
    as it is raised, and so does a fault raised while a lookup builds its
    parameter dictionary, before the guarded helper is entered: nothing is
    printed, nothing is returned.  A fault raised when the dictionary's
    values are bound to the statement is raised inside
    [connection.execute], within the [try]: the lookup prints it and
    returns the empty sequence. *)
Theorem faults_outside_the_guard_propagate :
  (forall (create_engine : string -> outcome Engine) (db_uri : string) (e : exn) (w : world),
      create_engine db_uri = Raise e ->
      __init__ create_engine db_uri w = (Raise e, w))
  /\ (forall (self : FlightData) (l : lookup) (e : exn) (w : world),
         params_of l = Raise e ->
         call self l w = (Raise e, w))
  /\ (forall (self : FlightData) (l : lookup) (params : dict) (e : exn) (w : world),
         params_of l = Return params ->
         bind_params (statement_of l) params = Raise e ->
         link w = Healthy ->
         call self l w = (Return [], logged (report e) w)).
Proof.
  split; [|split].
  - intros create_engine db_uri e w H. unfold __init__, bind, lift. rewrite H. reflexivity.
  - intros self l e w H. rewrite call_eq, H. reflexivity.
  - intros self l params e w Hp Hb Hlink.
    rewrite call_eq, Hp, _execute_query_eq, Hlink. unfold body_outcome.
    rewrite prepare_template, Hb. reflexivity.
Qed.

Lemma faults_outside_the_guard_propagate_witness :
  __init__ Example.create_engine "" Example.healthy
  = (Raise {| exn_type := ArgumentError; exn_str := "Could not parse SQLAlchemy URL" |},
     Example.healthy)
  /\ call Example.accessor (by_carrier PyNone) Example.healthy
     = (Raise {| exn_type := TypeError;
                 exn_str := ("can only concatenate str (not " ++ QUOTE ++ "NoneType" ++ QUOTE
                             ++ ") to str")%string |},
        Example.healthy)
  /\ call Example.accessor (by_date (PyInt 1) (PyInt 1) (PyInt (2 ^ 63))) Example.healthy
     = (Return [],
        logged "Unexpected Error: Python int too large to convert to SQLite INTEGER"
               Example.healthy).
Proof.
  split; [|split].
  - exact (proj1 faults_outside_the_guard_propagate
             Example.create_engine "" _ Example.healthy eq_refl).
  - exact (proj1 (proj2 faults_outside_the_guard_propagate)
             Example.accessor (by_carrier PyNone) _ Example.healthy eq_refl).
  - exact (proj2 (proj2 faults_outside_the_guard_propagate)
             Example.accessor (by_date (PyInt 1) (PyInt 1) (PyInt (2 ^ 63))) _ _
             Example.healthy eq_refl eq_refl eq_refl).
Defined.

(** C6, as stated, fails for binding: a list passed as identifier cannot be
    bound to [:id]; the fault is raised before the statement runs, and
    lookup-by-identifier prints it and returns the empty sequence instead of
    letting it reach the caller. *)
Lemma binding_fault_is_swallowed :
  bind_params flight_by_id [("id", PyObject "list")]
  = Raise {| exn_type := ProgrammingError;
             exn_str := "Error binding parameter: type list is not supported" |}
  /\ get_flight_by_id Example.accessor (PyObject "list") Example.healthy
     = (Return [],
        {| store := Example.db; link := Healthy; checked_out := 0;
           stdout := ["SQLAlchemy Error: Error binding parameter: type list is not supported"] |}).
Proof. split; reflexivity. Qed.

(** C8.  Every lookup leaves the store as it found it (and returns its
    connection to the pool), whatever its arguments and whatever goes
    wrong. *)
Theorem lookups_are_read_only (self : FlightData) (l : lookup) (w : world) :
  store (snd (call self l w)) = store w
  /\ checked_out (snd (call self l w)) = checked_out w.
Proof.
  rewrite call_eq. destruct (params_of l) as [params|e]; [|split; reflexivity].
  rewrite _execute_query_eq.
  destruct (body_outcome (store w) (link w) (template_of l) params); split; reflexivity.
Qed.


(** C10, as stated, fails: a [collections.UserString] is not a [str], and
    ["%" + airline] does not fail on it, its class defines the reflected
    addition.  The lookup enters the guarded helper with a dictionary whose
    value the driver cannot bind; the fault is printed and the lookup
    returns the empty sequence. *)
Lemma user_string_argument_is_concatenated :
  is_str (PyUserString "delta") = false
  /\ str_add "%" (PyUserString "delta") = Return (PyUserString "%delta")
  /\ params_of (by_carrier (PyUserString "delta"))
     = Return [("airline", PyUserString "%delta%")]
  /\ fst (get_delayed_flights_by_airline Example.accessor (PyUserString "delta")
            Example.healthy)
     = Return []
  /\ stdout (snd (get_delayed_flights_by_airline Example.accessor (PyUserString "delta")
                    Example.healthy))
     <> stdout Example.healthy.
Proof. repeat split. discriminate. Qed.

(** C10, amended.  For every argument that is not a [str] and whose class
    has no reflected addition with [str] ([None], an [int], a list, ...),
    ["%" + airline] raises [TypeError] in [get_delayed_flights_by_airline]
    before [_execute_query] is entered: the exception reaches the caller and
    the world is untouched (nothing printed, no connection taken).  The
    other three lookups build their dictionaries without any operation on
    the argument and return for every argument. *)
Theorem non_string_carrier_argument_raises
  (self : FlightData) (airline : pyval) (w : world) :
  is_str airline = false ->
  has_radd airline = false ->
  (exists e,
      exn_type e = TypeError
      /\ str_add "%" airline = Raise e
      /\ get_delayed_flights_by_airline self airline w = (Raise e, w))
  /\ (exists rows w', get_flight_by_id self airline w = (Return rows, w'))
  /\ (exists rows w', get_flights_by_date self airline airline airline w = (Return rows, w'))
  /\ (exists rows w', get_delayed_flights_by_airport self airline w = (Return rows, w'))
  /\ (forall l, (forall a, l <> by_carrier a) -> exists rows w', call self l w = (Return rows, w')).
Proof.
  intros Hns Hradd.
  assert (Hothers : forall l, (forall a, l <> by_carrier a) ->
                              exists rows w', call self l w = (Return rows, w')).
  { intros l Hl. destruct l as [v|d m y|v|v].
    - eapply call_returns. reflexivity.
    - eapply call_returns. reflexivity.
    - destruct (Hl v). reflexivity.
    - eapply call_returns. reflexivity. }
  split; [|split; [|split; [|split]]].
  - destruct airline; try discriminate;
      (eexists; split; [|split; [reflexivity|reflexivity]]; reflexivity).
  - apply (Hothers (by_identifier airline)). discriminate.
  - apply (Hothers (by_date airline airline airline)). discriminate.
  - apply (Hothers (by_origin airline)). discriminate.
  - exact Hothers.
Qed.

Lemma non_string_carrier_argument_raises_witness :
  (exists e,
      exn_type e = TypeError
      /\ str_add "%" (PyInt 3) = Raise e
      /\ get_delayed_flights_by_airline Example.accessor (PyInt 3) Example.healthy
         = (Raise e, Example.healthy))
  /\ (exists rows w', get_flight_by_id Example.accessor (PyInt 3) Example.healthy = (Return rows, w'))
  /\ (exists rows w',
        get_flights_by_date Example.accessor (PyInt 3) (PyInt 3) (PyInt 3) Example.healthy
        = (Return rows, w'))
  /\ (exists rows w',
        get_delayed_flights_by_airport Example.accessor (PyInt 3) Example.healthy
        = (Return rows, w'))
  /\ (forall l, (forall a, l <> by_carrier a) ->
                exists rows w', call Example.accessor l Example.healthy = (Return rows, w')).
Proof.
  exact (non_string_carrier_argument_raises Example.accessor (PyInt 3) Example.healthy
           eq_refl eq_refl).
Defined.

(** ** The shape of records *)

Lemma other_fields_columns (names : list string) (vals : list value) :
  columns_of (other_fields names vals) = names.
Proof.
  revert vals. induction names as [|n names IH]; intros vals; simpl; [reflexivity|].
  destruct vals as [|v vals]; simpl; f_equal; apply IH.
Qed.

Lemma item_fields_columns (db : database) (f : flights.row) (a : airlines.row) (i : item) :
  columns_of (item_fields db f a i) = item_columns db i.
Proof.
  destruct i as [|c alias]; simpl.
  - unfold columns_of at 1. simpl. repeat f_equal. apply other_fields_columns.
  - reflexivity.
Qed.

Lemma project_columns (db : database) (q : select) (fa : flights.row * airlines.row) :
  columns_of (project db q fa) = select_columns db q.
Proof.
  unfold project, select_columns.
  induction (items q) as [|i rest IH]; simpl; [reflexivity|].
  unfold columns_of in *. rewrite map_app, IH. f_equal.
  apply item_fields_columns.
Qed.

(** C7.  Whatever a lookup returns, every record of the sequence carries
    exactly the columns of the projection of the statement it executed, in
    that order, each with a value: the sequence is empty or uniformly
    shaped, never partial. *)
Theorem records_have_the_projection_shape
  (self : FlightData) (l : lookup) (w w' : world) (rows : list record) :
  call self l w = (Return rows, w') ->
  rows = []
  \/ (rows <> []
      /\ Forall (fun r => columns_of r = select_columns (store w) (statement_of l)) rows).
Proof.
  intros Hcall. destruct (call_rows _ _ _ _ _ Hcall) as [Hnil|(b & Hrows)]; [tauto|].
  destruct rows as [|r rows]; [tauto|]. right. split; [discriminate|].
  rewrite Hrows. unfold run_select. apply Forall_forall. intros r' Hin.
  apply in_map_iff in Hin as (fa & Heq & _). subst r'. apply project_columns.
Qed.

Lemma records_have_the_projection_shape_witness :
  [ [("ID", VInt 43); ("ORIGIN_AIRPORT", VText "ATL"); ("DESTINATION_AIRPORT", VText "JFK");
     ("AIRLINE", VText "American Airlines"); ("DELAY", VInt 50)];
    [("ID", VInt 42); ("ORIGIN_AIRPORT", VText "ATL"); ("DESTINATION_AIRPORT", VText "JFK");
     ("AIRLINE", VText "Delta Air Lines"); ("DELAY", VInt 35)] ] = []
  \/ ([ [("ID", VInt 43); ("ORIGIN_AIRPORT", VText "ATL"); ("DESTINATION_AIRPORT", VText "JFK");
         ("AIRLINE", VText "American Airlines"); ("DELAY", VInt 50)];
        [("ID", VInt 42); ("ORIGIN_AIRPORT", VText "ATL"); ("DESTINATION_AIRPORT", VText "JFK");
         ("AIRLINE", VText "Delta Air Lines"); ("DELAY", VInt 35)] ] <> []
      /\ Forall (fun r => columns_of r
                          = select_columns Example.db (statement_of (by_origin (PyStr "ATL"))))
           [ [("ID", VInt 43); ("ORIGIN_AIRPORT", VText "ATL"); ("DESTINATION_AIRPORT", VText "JFK");
              ("AIRLINE", VText "American Airlines"); ("DELAY", VInt 50)];
             [("ID", VInt 42); ("ORIGIN_AIRPORT", VText "ATL"); ("DESTINATION_AIRPORT", VText "JFK");
              ("AIRLINE", VText "Delta Air Lines"); ("DELAY", VInt 35)] ]).
Proof.
  exact (records_have_the_projection_shape Example.accessor (by_origin (PyStr "ATL"))
           Example.healthy Example.healthy _ eq_refl).
Defined.

(** ** Delay filter and order *)

Lemma string_compare_le_trans (a b c : string) :
  String.compare a b <> Gt -> String.compare b c <> Gt -> String.compare a c <> Gt.
Proof.
  intros Hab Hbc.
  destruct (String.compare a b) eqn:Eab; [| |congruence].
  - apply String.compare_eq_iff in Eab. subst b. assumption.
  - destruct (String.compare b c) eqn:Ebc; [| |congruence].
    + apply String.compare_eq_iff in Ebc. subst c. rewrite Eab. discriminate.
    + assert (Hac : String.compare a c = Lt).
      { apply OrderedTypeEx.String_as_OT.cmp_lt.
        eapply OrderedTypeEx.String_as_OT.lt_trans;
          apply OrderedTypeEx.String_as_OT.cmp_lt; eassumption. }
      rewrite Hac. discriminate.
Qed.

Lemma value_compare_le_trans (x y z : value) :
  value_compare x y <> Gt -> value_compare y z <> Gt -> value_compare x z <> Gt.
Proof.
  destruct x as [|a|a], y as [|b|b], z as [|c|c]; simpl; try congruence.
  - intros H1 H2.
    destruct (Z.compare_spec a b), (Z.compare_spec b c), (Z.compare_spec a c);
      try congruence; lia.
  - apply string_compare_le_trans.
Qed.

Lemma delay_not_below_trans : Relations_1.Transitive delay_not_below.
Proof.
  intros x y z (v1 & v2 & H1 & H2 & H12) (v2' & v3 & H2' & H3 & H23).
  rewrite H2 in H2'. inversion H2'; subst v2'.
  exists v1, v3. repeat split; trivial.
  eapply value_compare_le_trans; eassumption.
Qed.










(** ** Lookup by identifier *)

Lemma keep_by_id (id : Z) (f : flights.row) (a : airlines.row) :
  (holds (eval [("id", VInt id)] f a (on flight_by_id))
   && holds (eval [("id", VInt id)] f a (where_ flight_by_id)))%bool
  = (has_code f a && has_id id f)%bool.
Proof.
  cbn [on where_ flight_by_id].
  rewrite holds_join_by_id,
    (holds_int_param [("id", VInt id)] f a f_ID "id" id eq_refl eq_refl).
  reflexivity.
Qed.

Section Pairs.
Context {A B : Type} (p : A -> bool) (q : A -> B -> bool).

Lemma filter_row_pairs (x : A) (ys : list B) :
  filter (fun xy => (q (fst xy) (snd xy) && p (fst xy))%bool) (map (fun y => (x, y)) ys)
  = if p x then map (fun y => (x, y)) (filter (q x) ys) else [].
Proof.
  induction ys as [|y ys IH]; simpl.
  - destruct (p x); reflexivity.
  - rewrite IH. destruct (p x), (q x y); simpl; reflexivity.
Qed.

Lemma filter_all_pairs (xs : list A) (ys : list B) :
  filter (fun xy => (q (fst xy) (snd xy) && p (fst xy))%bool)
         (flat_map (fun x => map (fun y => (x, y)) ys) xs)
  = flat_map (fun x => map (fun y => (x, y)) (filter (q x) ys)) (filter p xs).
Proof.
  induction xs as [|x xs IH]; simpl; [reflexivity|].
  rewrite filter_app, IH, filter_row_pairs.
  destruct (p x); reflexivity.
Qed.
End Pairs.

Lemma selected_by_id (db : database) (id : Z) :
  selected db [("id", VInt id)] flight_by_id
  = flat_map (fun f => map (fun a => (f, a)) (filter (has_code f) (airlines_rows db)))
             (filter (has_id id) (flights_rows db)).
Proof.
  unfold selected. cbn [order_by_desc flight_by_id from joined].
  rewrite <- filter_all_pairs. apply filter_ext.
  intros [f a]. apply keep_by_id.
Qed.

Lemma bind_params_id (v : pyval) :
  bind_params flight_by_id [("id", v)]
  = match bind_value v with
    | Raise e => Raise e
    | Return x => Return [("id", x)]
    end.
Proof. reflexivity. Qed.

(** C3, as the code has it.  When exactly one flights row carries the
    identifier and its carrier code is the code of exactly one carrier,
    lookup-by-identifier returns exactly one record, the join of the two,
    whose identifier field is the input; when no flights row carries the
    identifier, it returns the empty sequence. *)
Theorem lookup_by_identifier_joined_flight (self : FlightData) (w : world) (id : Z) :
  (forall (f : flights.row) (a : airlines.row),
      link w = Healthy ->
      int64 id = true ->
      filter (has_id id) (flights_rows (store w)) = [f] ->
      filter (has_code f) (airlines_rows (store w)) = [a] ->
      exists r,
        get_flight_by_id self (PyInt id) w = (Return [r], w)
        /\ r = project (store w) flight_by_id (f, a)
        /\ field "ID" r = Some (VInt id))
  /\ (filter (has_id id) (flights_rows (store w)) = [] ->
      exists w', get_flight_by_id self (PyInt id) w = (Return [], w')).
Proof.
  split.
  - intros f a Hlink Hid Hf Ha. eexists. split; [|split; [reflexivity|]].
    + unfold get_flight_by_id. rewrite _execute_query_eq, Hlink. unfold body_outcome.
      rewrite prepare_by_id, bind_params_id. cbn [bind_value]. rewrite Hid.
      rewrite too_complex_by_id.
      unfold run_select. rewrite selected_by_id, Hf. cbn [flat_map]. rewrite Ha.
      reflexivity.
    + assert (Hin : In f (filter (has_id id) (flights_rows (store w)))) by (rewrite Hf; left; reflexivity).
      apply filter_In in Hin as [_ Hhas]. unfold has_id in Hhas.
      apply same_value_eq in Hhas.
      unfold project. cbn. rewrite Hhas. reflexivity.
  - intros Hnone. unfold get_flight_by_id. rewrite _execute_query_eq. unfold body_outcome.
    rewrite prepare_by_id, bind_params_id. cbn [bind_value].
    assert (Hrows : run_select (store w) [("id", VInt id)] flight_by_id = []).
    { unfold run_select. rewrite selected_by_id, Hnone. reflexivity. }
    destruct (link w), (int64 id); rewrite ?too_complex_by_id, ?Hrows; eauto.
Qed.

Lemma lookup_by_identifier_joined_flight_witness :
  (exists r,
      get_flight_by_id Example.accessor (PyInt 42) Example.healthy = (Return [r], Example.healthy)
      /\ r = project Example.db flight_by_id (Example.flight 42 1 "DL" "ATL" (Some 35), Example.delta)
      /\ field "ID" r = Some (VInt 42))
  /\ (exists w', get_flight_by_id Example.accessor (PyInt 7) Example.healthy = (Return [], w')).
Proof.
  split.
  - exact (proj1 (lookup_by_identifier_joined_flight Example.accessor Example.healthy 42)
             _ _ eq_refl eq_refl eq_refl eq_refl).
  - exact (proj2 (lookup_by_identifier_joined_flight Example.accessor Example.healthy 7) eq_refl).
Defined.

(** C3, as stated, fails: flight 45 is in the store, under an identifier no
    other row has, and lookup-by-identifier returns nothing, because its
    carrier code [ZZ] joins no row of [airlines]. *)
Lemma identifier_present_but_not_returned :
  filter (has_id 45) (flights_rows (store Example.healthy))
  = [Example.flight 45 2 "ZZ" "LAX" (Some 90)]
  /\ get_flight_by_id Example.accessor (PyInt 45) Example.healthy
     = (Return [], Example.healthy).
Proof. split; reflexivity. Qed.

(** ** Conditions of the three delayed statements *)



Lemma where_by_carrier (pattern : string) (f : flights.row) (a : airlines.row) :
  holds (eval [("airline", VText pattern)] f a (where_ flight_by_airline))
  = (passes_delay_filter (flights.DEPARTURE_DELAY f) && carrier_like pattern a)%bool.
Proof.
  unfold flight_by_airline, where_. rewrite holds_And, holds_delayed_bool. f_equal.
  unfold carrier_like. cbn [eval column_value bound String.eqb Ascii.eqb Bool.eqb].
  unfold sql_lower, sql_like. cbn [as_text].
  destruct (as_text (airlines.AIRLINE a)) as [name|]; [|reflexivity].
  cbn [as_text]. apply holds_of_bool.
Qed.

Lemma bind_params_airline (p : string) :
  bind_params flight_by_airline [("airline", PyStr p)] = Return [("airline", VText p)].
Proof. reflexivity. Qed.

Lemma by_airline_eq (self : FlightData) (airline : string) (w : world) :
  get_delayed_flights_by_airline self (PyStr airline) w
  = _execute_query self QUERY_FLIGHT_BY_AIRLINE
      [("airline", PyStr ("%" ++ airline ++ "%")%string)] w.
Proof. reflexivity. Qed.

(** ** Letter case in the carrier lookup *)

Lemma every_character (c : ascii) : In c (map ascii_of_nat (seq 0 256)).
Proof.
  rewrite <- (ascii_nat_embedding c). apply in_map, in_seq.
  pose proof (nat_ascii_bounded c). lia.
Qed.

(** Two characters have the same fold exactly when they are the same or the
    two cases of one ASCII letter. *)
Lemma same_letter_lower (c d : ascii) :
  same_letter c d = Ascii.eqb (lower_char c) (lower_char d).
Proof.
  assert (H : forallb (fun c => forallb (fun d =>
                 Bool.eqb (same_letter c d) (Ascii.eqb (lower_char c) (lower_char d)))
                (map ascii_of_nat (seq 0 256))) (map ascii_of_nat (seq 0 256)) = true)
    by (vm_compute; reflexivity).
  rewrite forallb_forall in H. specialize (H c (every_character c)).
  rewrite forallb_forall in H. apply Bool.eqb_prop, H, every_character.
Qed.

Lemma same_up_to_ascii_case_lower (s t : string) :
  same_up_to_ascii_case s t = String.eqb (lower s) (lower t).
Proof.
  revert t. induction s as [|c s IH]; intros [|d t]; simpl; trivial.
  rewrite same_letter_lower, IH. reflexivity.
Qed.

Lemma lower_app (s t : string) : lower (s ++ t) = (lower s ++ lower t)%string.
Proof. induction s as [|c s IH]; simpl; [reflexivity|]. rewrite IH. reflexivity. Qed.

Lemma carrier_like_lower (p1 p2 : string) (a : airlines.row) :
  lower p1 = lower p2 -> carrier_like p1 a = carrier_like p2 a.
Proof. intros Hl. unfold carrier_like. rewrite Hl. reflexivity. Qed.

Lemma run_by_airline_case (db : database) (p1 p2 : string) :
  lower p1 = lower p2 ->
  run_select db [("airline", VText p1)] flight_by_airline
  = run_select db [("airline", VText p2)] flight_by_airline.
Proof.
  intros Hl. unfold run_select, selected. cbn [order_by_desc flight_by_airline from on].
  f_equal. f_equal. apply filter_ext. intros [f a]. f_equal.
  change (holds (eval [("airline", VText p1)] (fst (f, a)) (snd (f, a))
                      (where_ flight_by_airline))
          = holds (eval [("airline", VText p2)] (fst (f, a)) (snd (f, a))
                        (where_ flight_by_airline))).
  rewrite !where_by_carrier, (carrier_like_lower p1 p2 _ Hl). reflexivity.
Qed.

(** C4, as stated, fails: a small and a capital e acute differ only in
    case, and the store folds neither, its [lower] and its [LIKE] know the
    26 letters of ASCII.  Searched in small letters the carrier of the
    second store is not found, searched in capitals it is. *)
Lemma accented_letters_are_not_folded :
  same_up_to_case (String Example.e_acute "cole") (String Example.E_ACUTE "COLE") = true
  /\ get_delayed_flights_by_airline Example.accessor
       (PyStr (String Example.e_acute "cole")) Example.odd
     = (Return [], Example.odd)
  /\ get_delayed_flights_by_airline Example.accessor
       (PyStr (String Example.E_ACUTE "COLE")) Example.odd
     = (Return
          [ [("ID", VInt 50); ("ORIGIN_AIRPORT", VText "SEA");
             ("DESTINATION_AIRPORT", VText "JFK");
             ("AIRLINE", VText (String Example.E_ACUTE "cole Air")); ("DELAY", VText "5 min")];
            [("ID", VInt 52); ("ORIGIN_AIRPORT", VText "SEA");
             ("DESTINATION_AIRPORT", VText "JFK");
             ("AIRLINE", VText (String Example.E_ACUTE "cole Air")); ("DELAY", VInt 30)] ],
        Example.odd).
Proof. repeat split. Qed.

(** C4, amended.  Two inputs that differ only in the case of letters of
    ASCII (the same characters but for [A]-[Z] against [a]-[z]) make
    lookup-by-carrier-substring return the same sequence, in every world:
    the same records in the same order, or the empty sequence for both. *)
Theorem carrier_lookup_ignores_case (self : FlightData) (w : world) (s1 s2 : string) :
  same_up_to_ascii_case s1 s2 = true ->
  fst (get_delayed_flights_by_airline self (PyStr s1) w)
  = fst (get_delayed_flights_by_airline self (PyStr s2) w).
Proof.
  intros Hsame. rewrite same_up_to_ascii_case_lower in Hsame.
  apply String.eqb_eq in Hsame.
  assert (Hl : lower ("%" ++ s1 ++ "%") = lower ("%" ++ s2 ++ "%"))
    by (rewrite !lower_app, Hsame; reflexivity).
  rewrite !by_airline_eq, !_execute_query_eq. unfold body_outcome.
  rewrite prepare_by_airline, !bind_params_airline.
  rewrite (run_by_airline_case (store w) _ _ Hl).
  rewrite (too_complex_same_length (store w) ("%" ++ s1 ++ "%") ("%" ++ s2 ++ "%")).
  - reflexivity.
  - rewrite <- (utf8_bytes_lower ("%" ++ s1 ++ "%")), Hl. apply utf8_bytes_lower.
Qed.

Lemma carrier_lookup_ignores_case_witness :
  fst (get_delayed_flights_by_airline Example.accessor (PyStr "delta") Example.healthy)
  = fst (get_delayed_flights_by_airline Example.accessor (PyStr "DELTA") Example.healthy).
Proof.
  exact (carrier_lookup_ignores_case Example.accessor Example.healthy "delta" "DELTA" eq_refl).
Defined.

(** ** Wildcards in the carrier lookup *)

Lemma like_percent (p s : string) :
  like (String "%" p) s
  = (like p s || match s with
                 | EmptyString => false
                 | String _ s' => like (String "%" p) s'
                 end)%bool.
Proof. destruct s; reflexivity. Qed.

Lemma like_one_percent (s : string) : like "%" s = true.
Proof.
  induction s as [|c s IH]; [reflexivity|].
  rewrite like_percent, IH. apply orb_true_r.
Qed.

Lemma like_two_percent (s : string) : like "%%" s = true.
Proof. rewrite like_percent, like_one_percent. reflexivity. Qed.










(** ** Operations and templates *)

Lemma distinct_NoDup (l : list string) : distinct l = true -> NoDup l.
Proof.
  induction l as [|x l IH]; simpl; intros H; constructor;
    apply andb_true_iff in H as [Hx Hl].
  - intros Hin. apply negb_true_iff in Hx.
    assert (existsb (String.eqb x) l = true); [|congruence].
    apply existsb_exists. exists x. split; [assumption|apply String.eqb_refl].
  - apply IH, Hl.
Qed.

(** C5, as the code has it.  The class offers four lookups; each builds one
    parameter dictionary and executes one text through the guarded helper;
    the four texts are distinct members of the six named texts of the
    module, and the remaining two, [QUERY_AVG_PERCENTAGE_DELAYED_FLIGHTS]
    and [QUERY_LONG_LAT], are executed by no lookup. *)
Theorem four_lookups_over_six_templates :
  length read_operations = 4%nat
  /\ NoDup (map fst read_operations)
  /\ NoDup (map snd read_operations)
  /\ (forall name, In name (map fst read_operations) <-> exists l, method_of l = name)
  /\ (forall (self : FlightData) (l : lookup) (w : world),
         In (method_of l, template_of l) read_operations
         /\ call self l w
            = match params_of l with
              | Return params => _execute_query self (template_of l) params w
              | Raise e => (Raise e, w)
              end)
  /\ length templates = 6%nat
  /\ NoDup (map fst templates)
  /\ NoDup (map snd templates)
  /\ incl (map snd read_operations) (map snd templates)
  /\ (forall l, template_of l <> QUERY_AVG_PERCENTAGE_DELAYED_FLIGHTS
                /\ template_of l <> QUERY_LONG_LAT).
Proof.
  assert (Hsix : NoDup (map snd templates)) by (apply distinct_NoDup; vm_compute; reflexivity).
  repeat match goal with |- _ /\ _ => split end.
  - reflexivity.
  - apply distinct_NoDup. vm_compute. reflexivity.
  - apply distinct_NoDup. vm_compute. reflexivity.
  - intros name. split.
    + simpl. intros [H|[H|[H|[H|[]]]]]; subst name.
      * exists (by_identifier PyNone). reflexivity.
      * exists (by_date PyNone PyNone PyNone). reflexivity.
      * exists (by_carrier PyNone). reflexivity.
      * exists (by_origin PyNone). reflexivity.
    + intros (l & <-). destruct l; simpl; tauto.
  - intros self l w. split; [|apply call_eq].
    destruct l; simpl; tauto.
  - reflexivity.
  - apply distinct_NoDup. vm_compute. reflexivity.
  - exact Hsix.
  - intros t Ht. simpl in Ht. simpl. tauto.
  - intros l. simpl in Hsix.
    repeat match goal with H : NoDup (_ :: _) |- _ => inversion H; clear H; subst end.
    split; intros Heq; destruct l; simpl in Heq; rewrite Heq in *; simpl in *; tauto.
Qed.

(** C5, as stated, fails: the lookups of the class number four, not five. *)
Lemma five_read_operations_refuted :
  map fst read_operations
  = ["get_flight_by_id"; "get_flights_by_date";
     "get_delayed_flights_by_airline"; "get_delayed_flights_by_airport"]
  /\ length read_operations <> 5%nat.
Proof. split; [reflexivity|discriminate]. Qed.


(** * Further properties of the lookups *)

(** ** The sort keeps the rows *)




(** ** The rows of the delayed statements *)



Lemma bind_params_date (day month year : pyval) (bd bm byr : value) :
  bind_value day = Return bd ->
  bind_value month = Return bm ->
  bind_value year = Return byr ->
  bind_params flight_by_date [("day", day); ("month", month); ("year", year)]
  = Return [("day", bd); ("month", bm); ("year", byr)].
Proof.
  intros Hd Hm Hy. unfold bind_params. cbn [select_placeholders flight_by_date on where_ order_by_desc
    placeholders app required get String.eqb Ascii.eqb Bool.eqb bind_values].
  rewrite Hd, Hm, Hy. reflexivity.
Qed.

Lemma bind_params_origin (v : pyval) :
  bind_params flight_by_origin_airport [("origin_airport", v)]
  = match bind_value v with
    | Raise e => Raise e
    | Return x => Return [("origin_airport", x)]
    end.
Proof. reflexivity. Qed.

Lemma bind_value_int (n : Z) : int64 n = true -> bind_value (PyInt n) = Return (VInt n).
Proof. intros H. simpl. rewrite H. reflexivity. Qed.

Lemma by_airline_selected (self : FlightData) (w : world) (airline : string) :
  link w = Healthy ->
  utf8_bytes ("%" ++ airline ++ "%") <= LIKE_PATTERN_LENGTH ->
  get_delayed_flights_by_airline self (PyStr airline) w
  = (Return (map (project (store w) flight_by_airline)
                 (selected (store w) [("airline", VText ("%" ++ airline ++ "%"))]
                           flight_by_airline)), w).
Proof.
  intros Hlink Hlen.
  rewrite by_airline_eq, _execute_query_eq, Hlink. unfold body_outcome.
  rewrite prepare_by_airline, bind_params_airline, (too_complex_within_limit _ _ Hlen).
  reflexivity.
Qed.

(** ** What each lookup returns, exactly *)







(** X4.  On a reachable store and for an identifier in the 64-bit range,
    lookup-by-identifier returns one record for every pair of a flights row
    carrying the identifier and a carrier row carrying that row's code, and
    no other record, whatever the delay of the flight; the statement has no
    [ORDER BY], the records come in the order the store chooses. *)
Theorem flight_by_id_exactly (self : FlightData) (w : world) (id : Z) :
  link w = Healthy ->
  int64 id = true ->
  exists sel,
    get_flight_by_id self (PyInt id) w
    = (Return (map (project (store w) flight_by_id) sel), w)
    /\ Permutation sel
         (flat_map
            (fun f => map (fun a => (f, a)) (filter (has_code f) (airlines_rows (store w))))
            (filter (has_id id) (flights_rows (store w)))).
Proof.
  intros Hlink Hid. exists (selected (store w) [("id", VInt id)] flight_by_id). split.
  - unfold get_flight_by_id. rewrite _execute_query_eq, Hlink.
    unfold body_outcome. rewrite prepare_by_id, bind_params_id, (bind_value_int id Hid).
    rewrite too_complex_by_id. reflexivity.
  - rewrite selected_by_id. reflexivity.
Qed.

Lemma flight_by_id_exactly_witness :
  exists sel,
    get_flight_by_id Example.accessor (PyInt 46) Example.healthy
    = (Return (map (project (store Example.healthy) flight_by_id) sel), Example.healthy)
    /\ Permutation sel
         (flat_map
            (fun f => map (fun a => (f, a))
                          (filter (has_code f) (airlines_rows (store Example.healthy))))
            (filter (has_id 46) (flights_rows (store Example.healthy)))).
Proof.
  exact (flight_by_id_exactly Example.accessor Example.healthy 46 eq_refl eq_refl).
Defined.

(** X5.  In every world and for every integer, every record that
    lookup-by-identifier returns carries that integer in its [ID] column:
    the lookup may return nothing or several records, never a record of
    another identifier. *)
Theorem flight_by_id_returns_only_that_identifier (self : FlightData) (w : world) (id : Z) :
  exists rows w',
    get_flight_by_id self (PyInt id) w = (Return rows, w')
    /\ Forall (fun r => field "ID" r = Some (VInt id)) rows.
Proof.
  unfold get_flight_by_id. rewrite _execute_query_eq. unfold body_outcome.
  rewrite prepare_by_id, bind_params_id. cbn [bind_value].
  assert (Hrows : Forall (fun r => field "ID" r = Some (VInt id))
                         (run_select (store w) [("id", VInt id)] flight_by_id)).
  { unfold run_select. rewrite selected_by_id. apply Forall_map, Forall_forall.
    intros [f a] Hin. apply in_flat_map in Hin as (f' & Hf' & Hin).
    apply in_map_iff in Hin as (a' & Heq & _). inversion Heq; subst f' a'.
    apply filter_In in Hf' as [_ Hhas]. unfold has_id in Hhas.
    apply same_value_eq in Hhas. unfold project. cbn. rewrite Hhas. reflexivity. }
  destruct (link w), (int64 id); rewrite ?too_complex_by_id; eauto.
Qed.

(** ** The pattern of the carrier lookup as a substring test *)
















(** ** Arguments that cannot match *)

Lemma filter_none {A : Type} (p : A -> bool) (l : list A) :
  (forall x, p x = false) -> filter p l = [].
Proof.
  intros Hp. induction l as [|x l IH]; simpl; [reflexivity|]. rewrite Hp. assumption.
Qed.

Lemma run_select_nothing (db : database) (b : bindings) (q : select) :
  (forall f a, holds (eval b f a (where_ q)) = false) ->
  run_select db b q = [].
Proof.
  intros Hw. unfold run_select, selected.
  rewrite filter_none; [destruct (order_by_desc q); reflexivity|].
  intros [f a]. cbn [fst snd]. rewrite Hw. apply andb_false_r.
Qed.

Lemma where_by_date_null (bd bm byr : value) (f : flights.row) (a : airlines.row) :
  bd = VNull \/ bm = VNull \/ byr = VNull ->
  holds (eval [("day", bd); ("month", bm); ("year", byr)] f a (where_ flight_by_date)) = false.
Proof.
  intros Hnull. unfold flight_by_date, where_. rewrite !holds_And.
  destruct Hnull as [->|[->| ->]].
  - rewrite (holds_null_param [("day", VNull); ("month", bm); ("year", byr)]
               f a f_DAY "day" eq_refl).
    rewrite andb_false_r. reflexivity.
  - rewrite (holds_null_param [("day", bd); ("month", VNull); ("year", byr)]
               f a f_MONTH "month" eq_refl).
    rewrite andb_false_r. reflexivity.
  - rewrite (holds_null_param [("day", bd); ("month", bm); ("year", VNull)]
               f a f_YEAR "year" eq_refl).
    rewrite andb_false_r. reflexivity.
Qed.

Lemma bind_value_none (v : pyval) (x : value) :
  bind_value v = Return x -> v = PyNone -> x = VNull.
Proof. intros Hb ->. inversion Hb. reflexivity. Qed.

(** X7.  [None] matches nothing.  On a reachable store, lookup-by-identifier
    and lookup-by-origin-location called with [None], and lookup-by-date
    called with [None] for the day, the month or the year (the other
    arguments being bindable), return the empty sequence and print nothing:
    the comparison with NULL is never true, whatever the rows hold. *)
Theorem none_argument_finds_nothing (self : FlightData) (w : world) :
  link w = Healthy ->
  get_flight_by_id self PyNone w = (Return [], w)
  /\ (forall day month year bd bm byr,
         bind_value day = Return bd ->
         bind_value month = Return bm ->
         bind_value year = Return byr ->
         day = PyNone \/ month = PyNone \/ year = PyNone ->
         get_flights_by_date self day month year w = (Return [], w))
  /\ get_delayed_flights_by_airport self PyNone w = (Return [], w).
Proof.
  intros Hlink. split; [|split].
  - unfold get_flight_by_id. rewrite _execute_query_eq, Hlink. unfold body_outcome.
    rewrite prepare_by_id, bind_params_id. cbn [bind_value].
    rewrite too_complex_by_id, run_select_nothing; [reflexivity|].
    intros f a. apply (holds_null_param [("id", VNull)] f a f_ID "id" eq_refl).
  - intros day month year bd bm byr Hd Hm Hy Hnone.
    unfold get_flights_by_date. rewrite _execute_query_eq, Hlink. unfold body_outcome.
    rewrite prepare_by_date, (bind_params_date _ _ _ _ _ _ Hd Hm Hy).
    rewrite too_complex_by_date, run_select_nothing; [reflexivity|].
    intros f a. apply where_by_date_null.
    destruct Hnone as [H|[H|H]]; eauto using bind_value_none.
  - unfold get_delayed_flights_by_airport. rewrite _execute_query_eq, Hlink.
    unfold body_outcome. rewrite prepare_by_origin, bind_params_origin. cbn [bind_value].
    rewrite too_complex_by_origin, run_select_nothing; [reflexivity|].
    intros f a. unfold flight_by_origin_airport, where_. rewrite holds_And.
    rewrite (holds_null_param [("origin_airport", VNull)]
               f a f_ORIGIN_AIRPORT "origin_airport" eq_refl).
    apply andb_false_r.
Qed.

Lemma none_argument_finds_nothing_witness :
  get_flight_by_id Example.accessor PyNone Example.healthy = (Return [], Example.healthy)
  /\ (forall day month year bd bm byr,
         bind_value day = Return bd ->
         bind_value month = Return bm ->
         bind_value year = Return byr ->
         day = PyNone \/ month = PyNone \/ year = PyNone ->
         get_flights_by_date Example.accessor day month year Example.healthy
         = (Return [], Example.healthy))
  /\ get_delayed_flights_by_airport Example.accessor PyNone Example.healthy
     = (Return [], Example.healthy).
Proof.
  exact (none_argument_finds_nothing Example.accessor Example.healthy eq_refl).
Defined.

(** X8.  An integer outside the 64-bit range cannot be bound.  On a
    reachable store, lookup-by-identifier, lookup-by-date (for its day) and
    lookup-by-origin-location called with such an integer return the empty
    sequence and print one line, under the prefix of the second handler:
    the overflow is not a SQLAlchemy error. *)
Theorem integer_out_of_range_finds_nothing (self : FlightData) (w : world) (n : Z) :
  link w = Healthy ->
  int64 n = false ->
  get_flight_by_id self (PyInt n) w
  = (Return [],
     logged "Unexpected Error: Python int too large to convert to SQLite INTEGER" w)
  /\ (forall month year,
         get_flights_by_date self (PyInt n) month year w
         = (Return [],
            logged "Unexpected Error: Python int too large to convert to SQLite INTEGER" w))
  /\ get_delayed_flights_by_airport self (PyInt n) w
     = (Return [],
        logged "Unexpected Error: Python int too large to convert to SQLite INTEGER" w).
Proof.
  intros Hlink Hn. split; [|split].
  - unfold get_flight_by_id. rewrite _execute_query_eq, Hlink. unfold body_outcome.
    rewrite prepare_by_id, bind_params_id. cbn [bind_value]. rewrite Hn. reflexivity.
  - intros month year.
    unfold get_flights_by_date. rewrite _execute_query_eq, Hlink. unfold body_outcome.
    rewrite prepare_by_date. unfold bind_params.
    cbn [select_placeholders flight_by_date on where_ order_by_desc
         placeholders app required get String.eqb Ascii.eqb Bool.eqb bind_values bind_value].
    rewrite Hn. reflexivity.
  - unfold get_delayed_flights_by_airport. rewrite _execute_query_eq, Hlink.
    unfold body_outcome. rewrite prepare_by_origin, bind_params_origin.
    cbn [bind_value]. rewrite Hn. reflexivity.
Qed.

Lemma integer_out_of_range_finds_nothing_witness :
  get_flight_by_id Example.accessor (PyInt (2 ^ 63)) Example.healthy
  = (Return [],
     logged "Unexpected Error: Python int too large to convert to SQLite INTEGER"
            Example.healthy)
  /\ (forall month year,
         get_flights_by_date Example.accessor (PyInt (2 ^ 63)) month year Example.healthy
         = (Return [],
            logged "Unexpected Error: Python int too large to convert to SQLite INTEGER"
                   Example.healthy))
  /\ get_delayed_flights_by_airport Example.accessor (PyInt (2 ^ 63)) Example.healthy
     = (Return [],
        logged "Unexpected Error: Python int too large to convert to SQLite INTEGER"
               Example.healthy).
Proof.
  exact (integer_out_of_range_finds_nothing Example.accessor Example.healthy (2 ^ 63)
           eq_refl eq_refl).
Defined.

(** ** Dictionaries and placeholders *)

(** X9.  The dictionary a lookup builds has, in order and without
    repetition, exactly the keys that the text it executes names as
    placeholders: no placeholder is left without a value and no key goes
    unused. *)
Theorem dictionary_keys_are_the_placeholders (l : lookup) (params : dict) :
  params_of l = Return params ->
  map fst params = select_placeholders (statement_of l)
  /\ NoDup (map fst params)
  /\ required (select_placeholders (statement_of l)) params = Return params.
Proof.
  intros Hp.
  assert (Hkeys : map fst params = select_placeholders (statement_of l)
                  /\ required (select_placeholders (statement_of l)) params = Return params).
  { destruct l as [v|d m y|v|v]; simpl in Hp.
    - inversion Hp; subst. split; reflexivity.
    - inversion Hp; subst. split; reflexivity.
    - destruct v; try discriminate; inversion Hp; subst; split; reflexivity.
    - inversion Hp; subst. split; reflexivity. }
  destruct Hkeys as [Hkeys Hreq]. repeat split; trivial.
  rewrite Hkeys. apply distinct_NoDup. destruct l; reflexivity.
Qed.

Lemma dictionary_keys_are_the_placeholders_witness :
  map fst [("day", PyInt 1); ("month", PyInt 1); ("year", PyInt 2015)]
  = select_placeholders (statement_of (by_date (PyInt 1) (PyInt 1) (PyInt 2015)))
  /\ NoDup (map fst [("day", PyInt 1); ("month", PyInt 1); ("year", PyInt 2015)])
  /\ required (select_placeholders (statement_of (by_date (PyInt 1) (PyInt 1) (PyInt 2015))))
              [("day", PyInt 1); ("month", PyInt 1); ("year", PyInt 2015)]
     = Return [("day", PyInt 1); ("month", PyInt 1); ("year", PyInt 2015)].
Proof.
  exact (dictionary_keys_are_the_placeholders (by_date (PyInt 1) (PyInt 1) (PyInt 2015))
           _ eq_refl).
Defined.

(** ** Lookups one after the other *)

Lemma call_world (self : FlightData) (l : lookup) (w : world) :
  store (snd (call self l w)) = store w
  /\ link (snd (call self l w)) = link w
  /\ checked_out (snd (call self l w)) = checked_out w.
Proof.
  rewrite call_eq. destruct (params_of l) as [params|e]; [|repeat split].
  rewrite _execute_query_eq.
  destruct (body_outcome (store w) (link w) (template_of l) params); repeat split.
Qed.

Lemma call_result (self : FlightData) (l : lookup) (w1 w2 : world) :
  store w1 = store w2 -> link w1 = link w2 ->
  fst (call self l w1) = fst (call self l w2).
Proof.
  intros Hs Hl. rewrite !call_eq. destruct (params_of l) as [params|e]; [|reflexivity].
  rewrite !_execute_query_eq, Hs, Hl.
  destruct (body_outcome (store w2) (link w2) (template_of l) params); reflexivity.
Qed.

Lemma after_world (self : FlightData) (ls : list lookup) (w : world) :
  store (after self ls w) = store w
  /\ link (after self ls w) = link w
  /\ checked_out (after self ls w) = checked_out w.
Proof.
  unfold after. revert w. induction ls as [|l ls IH]; intros w; simpl; [repeat split|].
  destruct (IH (snd (call self l w))) as (Hs & Hl & Hc).
  destruct (call_world self l w) as (Hs' & Hl' & Hc').
  rewrite Hs, Hl, Hc. repeat split; assumption.
Qed.

(** X10.  Lookups do not interfere.  After any run of lookups, with any
    arguments, failed or not, the store is the one before the run, no
    connection is left out of the pool, and a further lookup returns what it
    would have returned had it been made first. *)
Theorem lookups_do_not_interfere (self : FlightData) (ls : list lookup) (l : lookup) (w : world) :
  store (after self ls w) = store w
  /\ checked_out (after self ls w) = checked_out w
  /\ fst (call self l (after self ls w)) = fst (call self l w).
Proof.
  destruct (after_world self ls w) as (Hs & Hl & Hc).
  repeat split; trivial. apply call_result; assumption.
Qed.

(** ** The two handlers *)

(** X11.  For any text and any dictionary, [_execute_query] ends in one of
    two ways.  Either its body returned, and the helper returns the same
    rows with the world as before the call, nothing printed; or its body
    raised, and the helper returns the empty sequence after one line, whose
    prefix is ["SQLAlchemy Error: "] exactly when the exception is a
    SQLAlchemy error and ["Unexpected Error: "] otherwise, the first handler
    taking precedence.  So a call that returned a record printed nothing. *)
Theorem helper_ends_in_one_of_two_ways
  (self : FlightData) (query : string) (params : dict) (w : world) :
  (exists rows,
      query_body self query params w = (Return rows, w)
      /\ _execute_query self query params w = (Return rows, w))
  \/ (exists e,
         query_body self query params w = (Raise e, w)
         /\ _execute_query self query params w
            = (Return [],
               {| store := store w; link := link w; checked_out := checked_out w;
                  stdout := stdout w
                            ++ [((if is_SQLAlchemyError e
                                  then "SQLAlchemy Error: " else "Unexpected Error: ")
                                 ++ exn_str e)%string] |})).
Proof.
  rewrite query_body_eq, _execute_query_eq.
  destruct (body_outcome (store w) (link w) query params) as [rows|e].
  - left. eauto.
  - right. exists e. split; [reflexivity|].
    unfold logged, report, print. simpl. destruct (is_SQLAlchemyError e); reflexivity.
Qed.

(** ** Faults at any stage *)

(** X12.  The [try] encloses connecting, executing and fetching alike.  For
    every lookup whose dictionary is built, when the link to the store
    fails at any of the three stages the lookup returns the empty sequence
    and prints one line for one exception, and the store is as before. *)
Theorem fault_at_any_stage_is_swallowed
  (self : FlightData) (l : lookup) (params : dict) (w : world) :
  params_of l = Return params ->
  link w <> Healthy ->
  exists e,
    call self l w = (Return [], logged (report e) w)
    /\ stdout (logged (report e) w) = stdout w ++ [report e]
    /\ store (logged (report e) w) = store w.
Proof.
  intros Hp Hlink. rewrite call_eq, Hp, _execute_query_eq. unfold body_outcome.
  rewrite prepare_template.
  destruct (link w) as [|x|x|x]; [congruence| | |].
  - exists x. repeat split.
  - destruct (bind_params (statement_of l) params) as [b|e]; eexists; repeat split.
  - destruct (bind_params (statement_of l) params) as [b|e];
      [destruct (too_complex (store w) b (statement_of l))|]; eexists; repeat split.
Qed.

Lemma fault_at_any_stage_is_swallowed_witness :
  exists e,
    call Example.accessor (by_origin (PyStr "ATL")) Example.dropped
    = (Return [], logged (report e) Example.dropped)
    /\ stdout (logged (report e) Example.dropped) = stdout Example.dropped ++ [report e]
    /\ store (logged (report e) Example.dropped) = store Example.dropped.
Proof.
  apply (fault_at_any_stage_is_swallowed Example.accessor (by_origin (PyStr "ATL"))
           [("origin_airport", PyStr "ATL")] Example.dropped eq_refl).
  discriminate.
Defined.


(** ** One lookup in terms of another *)

Lemma delayed_rows_origin (self : FlightData) (l : lookup) (w w' : world) (rows : list record)
      (r : record) :
  (forall v, l <> by_identifier v) ->
  call self l w = (Return rows, w') ->
  In r rows ->
  exists f a,
    In f (flights_rows (store w)) /\ In a (airlines_rows (store w))
    /\ has_code f a = true /\ passes_delay_filter (flights.DEPARTURE_DELAY f) = true
    /\ r = flat_map (item_fields (store w) f a) delayed_items.
Proof.
  intros Hl Hcall Hin.
  destruct (call_rows _ _ _ _ _ Hcall) as [Hnil|(b & Hrows)]; [subst; contradiction|].
  subst rows. unfold run_select in Hin. apply in_map_iff in Hin as ([f a] & Hr & Hsel).
  apply selected_In in Hsel as (Hf & Ha & Hon & Hw).
  exists f, a.
  assert (Hcd : has_code f a = true /\ passes_delay_filter (flights.DEPARTURE_DELAY f) = true
                /\ r = flat_map (item_fields (store w) f a) delayed_items).
  { destruct l as [v|d m y|v|v].
    - destruct (Hl v). reflexivity.
    - simpl statement_of in *. split; [|split].
      + rewrite <- (holds_join b f a). exact Hon.
      + unfold flight_by_date, where_ in Hw. rewrite !holds_And in Hw.
        rewrite <- (holds_delayed_bool b f a). unfold delayed. rewrite holds_And.
        repeat (apply andb_true_iff in Hw as [Hw ?]). apply andb_true_iff. split; assumption.
      + subst r. reflexivity.
    - simpl statement_of in *. split; [|split].
      + rewrite <- (holds_join b f a). exact Hon.
      + unfold flight_by_airline, where_ in Hw. rewrite holds_And in Hw.
        apply andb_true_iff in Hw as [Hw _]. rewrite <- (holds_delayed_bool b f a). exact Hw.
      + subst r. reflexivity.
    - simpl statement_of in *. split; [|split].
      + rewrite <- (holds_join b f a). exact Hon.
      + unfold flight_by_origin_airport, where_ in Hw. rewrite holds_And in Hw.
        apply andb_true_iff in Hw as [Hw _]. rewrite <- (holds_delayed_bool b f a). exact Hw.
      + subst r. reflexivity. }
  tauto.
Qed.

(** X13.  The carrier lookup with the empty input returns every record of
    a named carrier that the delay lookups can return.  On a reachable
    store, every record returned by lookup-by-date, by
    lookup-by-origin-location or by lookup-by-carrier-substring, for any
    arguments, whose [AIRLINE] is not NULL is among the records of
    lookup-by-carrier-substring called with the empty string. *)
Theorem empty_carrier_input_returns_all_delayed (self : FlightData) (w : world) :
  link w = Healthy ->
  exists every,
    get_delayed_flights_by_airline self (PyStr "") w = (Return every, w)
    /\ (forall day month year rows w' r,
           get_flights_by_date self day month year w = (Return rows, w') ->
           In r rows -> field "AIRLINE" r <> Some VNull -> In r every)
    /\ (forall airport_input rows w' r,
           get_delayed_flights_by_airport self airport_input w = (Return rows, w') ->
           In r rows -> field "AIRLINE" r <> Some VNull -> In r every)
    /\ (forall airline rows w' r,
           get_delayed_flights_by_airline self (PyStr airline) w = (Return rows, w') ->
           In r rows -> field "AIRLINE" r <> Some VNull -> In r every).
Proof.
  intros Hlink.
  assert (Hlen : utf8_bytes ("%" ++ "" ++ "%") <= LIKE_PATTERN_LENGTH)
    by (vm_compute; discriminate).
  eexists. split; [exact (by_airline_selected self w "" Hlink Hlen)|].
  assert (Hall : forall l rows w' r,
             (forall v, l <> by_identifier v) ->
             call self l w = (Return rows, w') ->
             In r rows -> field "AIRLINE" r <> Some VNull ->
             In r (map (project (store w) flight_by_airline)
                       (selected (store w) [("airline", VText ("%" ++ "" ++ "%"))]
                                 flight_by_airline))).
  { intros l rows w' r Hl Hrows Hin Hnamed.
    destruct (delayed_rows_origin self l w w' rows r Hl Hrows Hin)
      as (f & a & Hf & Ha & Hcode & Hdel & Hr).
    apply in_map_iff. exists (f, a). split; [subst r; reflexivity|].
    apply selected_In. repeat split; trivial.
    - change (on flight_by_airline) with (Equals (Col a_ID) (Col f_AIRLINE)).
      rewrite holds_join. assumption.
    - rewrite where_by_carrier, Hdel. unfold carrier_like.
      assert (Hname : airlines.AIRLINE a <> VNull).
      { intros Hnull. apply Hnamed. subst r. cbn. rewrite Hnull. reflexivity. }
      destruct (airlines.AIRLINE a) as [|z|t]; [congruence| |];
        cbn [as_text andb];
        change (until_nul (lower ("%" ++ "" ++ "%"))) with "%%"; apply like_two_percent. }
  split; [|split].
  - intros day month year rows w' r H.
    apply (Hall (by_date day month year) rows w' r); [discriminate|exact H].
  - intros airport_input rows w' r H.
    apply (Hall (by_origin airport_input) rows w' r); [discriminate|exact H].
  - intros airline rows w' r H.
    apply (Hall (by_carrier (PyStr airline)) rows w' r); [discriminate|exact H].
Qed.

Lemma empty_carrier_input_returns_all_delayed_witness :
  exists every,
    get_delayed_flights_by_airline Example.accessor (PyStr "") Example.healthy
    = (Return every, Example.healthy)
    /\ (forall day month year rows w' r,
           get_flights_by_date Example.accessor day month year Example.healthy
           = (Return rows, w') ->
           In r rows -> field "AIRLINE" r <> Some VNull -> In r every)
    /\ (forall airport_input rows w' r,
           get_delayed_flights_by_airport Example.accessor airport_input Example.healthy
           = (Return rows, w') ->
           In r rows -> field "AIRLINE" r <> Some VNull -> In r every)
    /\ (forall airline rows w' r,
           get_delayed_flights_by_airline Example.accessor (PyStr airline) Example.healthy
           = (Return rows, w') ->
           In r rows -> field "AIRLINE" r <> Some VNull -> In r every).
Proof.
  exact (empty_carrier_input_returns_all_delayed Example.accessor Example.healthy eq_refl).
Defined.

(** X14.  What a delay lookup returns can be fetched by its identifier.  On
    a reachable store, for every record of lookup-by-date,
    lookup-by-carrier-substring or lookup-by-origin-location whose [ID] is
    an integer of the 64-bit range, lookup-by-identifier with that integer
    returns a record of the same flight: same origin, same destination, and
    in its [DEPARTURE_DELAY] column the delay the first record shows as
    [DELAY]. *)
Theorem delayed_record_is_found_by_its_identifier
  (self : FlightData) (l : lookup) (w w' : world) (rows : list record) (r : record) (id : Z) :
  link w = Healthy ->
  (forall v, l <> by_identifier v) ->
  call self l w = (Return rows, w') ->
  In r rows ->
  field "ID" r = Some (VInt id) ->
  int64 id = true ->
  exists found r',
    get_flight_by_id self (PyInt id) w = (Return found, w)
    /\ In r' found
    /\ field "ID" r' = Some (VInt id)
    /\ field "ORIGIN_AIRPORT" r' = field "ORIGIN_AIRPORT" r
    /\ field "DESTINATION_AIRPORT" r' = field "DESTINATION_AIRPORT" r
    /\ field "DEPARTURE_DELAY" r' = field "DELAY" r.
Proof.
  intros Hlink Hl Hcall Hin Hid Hrange.
  destruct (delayed_rows_origin self l w w' rows r Hl Hcall Hin)
    as (f & a & Hf & Ha & Hcode & _ & Hr).
  assert (Hfid : flights.ID f = VInt id).
  { subst r. cbn in Hid. inversion Hid. reflexivity. }
  eexists. exists (project (store w) flight_by_id (f, a)). split; [|split].
  - unfold get_flight_by_id. rewrite _execute_query_eq, Hlink. unfold body_outcome.
    rewrite prepare_by_id, bind_params_id, (bind_value_int id Hrange).
    rewrite too_complex_by_id. reflexivity.
  - unfold run_select. apply in_map. rewrite selected_by_id.
    apply in_flat_map. exists f. split.
    + apply filter_In. split; [assumption|]. unfold has_id. rewrite Hfid. apply Z.eqb_refl.
    + apply in_map. apply filter_In. split; assumption.
  - subst r. unfold project. cbn. rewrite Hfid. repeat split.
Qed.

Lemma delayed_record_is_found_by_its_identifier_witness :
  exists found r',
    get_flight_by_id Example.accessor (PyInt 42) Example.healthy = (Return found, Example.healthy)
    /\ In r' found
    /\ field "ID" r' = Some (VInt 42)
    /\ field "ORIGIN_AIRPORT" r'
       = field "ORIGIN_AIRPORT"
           [("ID", VInt 42); ("ORIGIN_AIRPORT", VText "ATL"); ("DESTINATION_AIRPORT", VText "JFK");
            ("AIRLINE", VText "Delta Air Lines"); ("DELAY", VInt 35)]
    /\ field "DESTINATION_AIRPORT" r'
       = field "DESTINATION_AIRPORT"
           [("ID", VInt 42); ("ORIGIN_AIRPORT", VText "ATL"); ("DESTINATION_AIRPORT", VText "JFK");
            ("AIRLINE", VText "Delta Air Lines"); ("DELAY", VInt 35)]
    /\ field "DEPARTURE_DELAY" r'
       = field "DELAY"
           [("ID", VInt 42); ("ORIGIN_AIRPORT", VText "ATL"); ("DESTINATION_AIRPORT", VText "JFK");
            ("AIRLINE", VText "Delta Air Lines"); ("DELAY", VInt 35)].
Proof.
  apply (delayed_record_is_found_by_its_identifier Example.accessor
           (by_date (PyInt 1) (PyInt 1) (PyInt 2015)) Example.healthy Example.healthy
           [ [("ID", VInt 43); ("ORIGIN_AIRPORT", VText "ATL"); ("DESTINATION_AIRPORT", VText "JFK");
              ("AIRLINE", VText "American Airlines"); ("DELAY", VInt 50)];
             [("ID", VInt 42); ("ORIGIN_AIRPORT", VText "ATL"); ("DESTINATION_AIRPORT", VText "JFK");
              ("AIRLINE", VText "Delta Air Lines"); ("DELAY", VInt 35)] ]).
  - reflexivity.
  - discriminate.
  - reflexivity.
  - simpl. tauto.
  - reflexivity.
  - reflexivity.
Defined.
